(** * ChatEase: the streamed-response relay of [main.py]

    A shallow embedding of the three functions of [main.py]
    ([stream_response], [transcribe_audio], [handle_chat]) together with
    the Python operations they rely on, followed by the properties of the
    relay that the design document states.

    Modelling conventions.
    - A Python [str] (and a [bytes] value) is a [string]; every [ascii] is
      one character with code point below 256.
    - A value produced by [json.loads] / [response.json()] is a
      [json_value]; a JSON object is a Python [dict], here a [gmap] with
      string keys.
    - An exception is a value of [exn]; a computation either returns or
      raises ([result]).
    - The Streamlit session state, the widgets written to the page and the
      HTTP requests sent are the [world]; it is threaded through every
      call ([M]).
    - The network, the JSON codec and the process environment are not
      part of the repository: they are the fields of [Env], and every
      function and every statement is parametric in them. *)

From Stdlib Require Import ZArith String List Ascii Bool Lia.
From Stdlib Require Import Floats.SpecFloat.
From stdpp Require Import base option list gmap strings.

Set Default Proof Using "Type".
#[local] Set Warnings "-register-all".
#[local] Open Scope string_scope.
#[local] Open Scope Z_scope.
#[local] Open Scope list_scope.

(** ** Python strings *)

Module PyStr.

(** [str.isspace] on one character, for the code points below 256:
    TAB, LF, VT, FF, CR, FS, GS, RS, US, SPACE, NEL and NBSP. *)
Definition isspace (c : ascii) : bool :=
  let n := Z.of_N (N_of_ascii c) in
  ((9 <=? n) && (n <=? 13)) || ((28 <=? n) && (n <=? 32))
  || (n =? 133) || (n =? 160).

(** [s.lstrip()] *)
Fixpoint lstrip (s : string) : string :=
  match s with
  | EmptyString => EmptyString
  | String c s' => if isspace c then lstrip s' else s
  end.

(** [s.rstrip()] *)
Fixpoint rstrip (s : string) : string :=
  match s with
  | EmptyString => EmptyString
  | String c s' =>
      match rstrip s' with
      | EmptyString => if isspace c then EmptyString else String c EmptyString
      | r => String c r
      end
  end.

(** [s.strip()] *)
Definition strip (s : string) : string := rstrip (lstrip s).

(** [needle in hay] for two strings: [needle] occurs in [hay] as a
    contiguous substring. *)
Fixpoint contains (needle hay : string) : bool :=
  String.prefix needle hay
  || match hay with
     | EmptyString => false
     | String _ hay' => contains needle hay'
     end.

(** Every character of [s] is whitespace. *)
Fixpoint all_space (s : string) : bool :=
  match s with
  | EmptyString => true
  | String c s' => isspace c && all_space s'
  end.

(** The first character of [s], when there is one, is not whitespace. *)
Definition starts_clean (s : string) : bool :=
  match s with
  | EmptyString => true
  | String c _ => negb (isspace c)
  end.

(** The last character of [s], when there is one, is not whitespace. *)
Fixpoint ends_clean (s : string) : bool :=
  match s with
  | EmptyString => true
  | String c EmptyString => negb (isspace c)
  | String _ s' => ends_clean s'
  end.

End PyStr.

(** ** JSON values, exceptions *)

(** What [json.loads] can return: [None], [bool], [int], [float], [str],
    [list] and [dict]. *)
Inductive json_value : Type :=
| JNull
| JBool (b : bool)
| JInt (n : Z)
| JFloat (f : spec_float)
| JStr (s : string)
| JArr (l : list json_value)
| JObj (m : gmap string json_value).

(** The exception classes that the three functions can let escape. *)
Inductive exn : Type :=
| HTTPError          (* requests: [raise_for_status] on a 4xx/5xx status *)
| RequestException   (* requests: the transport failed *)
| ValueError         (* [UnicodeDecodeError], [JSONDecodeError] *)
| KeyError
| TypeError
| IndexError
| AttributeError.

Inductive result (A : Type) : Type :=
| Ok (a : A)
| Raise (e : exn).
Arguments Ok {A} a.
Arguments Raise {A} e.

(** Sequencing of expressions that may raise. *)
Definition result_bind {A B} (r : result A) (k : A -> result B) : result B :=
  match r with
  | Ok a => k a
  | Raise e => Raise e
  end.

Declare Scope result_scope.
Delimit Scope result_scope with result.
Notation "x <- r ;; k" := (result_bind r (fun x => k))
  (at level 100, r at next level, right associativity) : result_scope.

Module Py.

(** [v[k]] with a string subscript [k]. Only a [dict] accepts it; a
    missing key is a [KeyError], every other receiver a [TypeError]. *)
Definition getitem (v : json_value) (k : string) : result json_value :=
  match v with
  | JObj m => match m !! k with
              | Some x => Ok x
              | None => Raise KeyError
              end
  | _ => Raise TypeError
  end.

(** [v[0]]: the first element of a [list], the first character of a
    [str]; [IndexError] when empty. A [dict] from JSON has no key [0]
    ([KeyError]); the other values are not subscriptable. *)
Definition getitem0 (v : json_value) : result json_value :=
  match v with
  | JArr (x :: _) => Ok x
  | JArr [] => Raise IndexError
  | JStr (String c _) => Ok (JStr (String c EmptyString))
  | JStr EmptyString => Raise IndexError
  | JObj _ => Raise KeyError
  | _ => Raise TypeError
  end.

(** [v.get(k, dflt)]: only a [dict] has the method. *)
Definition get (v : json_value) (k : string) (dflt : json_value)
  : result json_value :=
  match v with
  | JObj m => Ok (default dflt (m !! k))
  | _ => Raise AttributeError
  end.

(** [x == needle] for a string [needle]. *)
Definition eq_str (needle : string) (x : json_value) : bool :=
  match x with
  | JStr s => bool_decide (s = needle)
  | _ => false
  end.

(** [needle in v] for a string [needle]: substring test on a [str],
    element test on a [list], key test on a [dict]; the other values are
    not iterable. *)
Definition contains (needle : string) (v : json_value) : result bool :=
  match v with
  | JStr s => Ok (PyStr.contains needle s)
  | JArr l => Ok (existsb (eq_str needle) l)
  | JObj m => Ok (bool_decide (is_Some (m !! needle)))
  | _ => Raise TypeError
  end.

(** [text + v] for a string [text] (what [text += v] computes). *)
Definition add (text : string) (v : json_value) : result string :=
  match v with
  | JStr s => Ok (text +:+ s)
  | _ => Raise TypeError
  end.

(** [v.strip()]: only a [str] has the method. *)
Definition strip (v : json_value) : result string :=
  match v with
  | JStr s => Ok (PyStr.strip s)
  | _ => Raise AttributeError
  end.

End Py.

(** ** The world: session state, page and network *)

(** One entry of [st.session_state.messages]: the dict
    [{"role": role, "content": content}]. *)
Record Message : Type := { role : string; content : string }.

(** What a call leaves behind outside the session state, in the order in
    which it happens. *)
Inductive event : Type :=
| Post (url data : string) (headers : list (string * string))
                                  (* [requests.post(url, data, headers)] *)
| StEmpty                         (* [st.empty()], a fresh placeholder *)
| AreaMarkdown (text : string)    (* [response_area.markdown(text)] *)
| StChatMessage (name : string)   (* [with st.chat_message(name):] *)
| StMarkdown (body : string)      (* [st.markdown(body)] *)
| StError (body : string).        (* [st.error(body)] *)

Record world : Type := {
  messages : list Message;        (* [st.session_state.messages] *)
  trace : list event
}.

(** What the caller sees of a [requests.Response]: its status, the lines
    [iter_lines()] yields once the body has arrived, and what [json()]
    returns ([None] when it raises because the body is not JSON). *)
Record Response : Type := {
  status_code : Z;
  iter_lines : list string;
  json : option json_value
}.

(** Everything [main.py] takes from outside the repository. *)
Record Env : Type := {
  DEEPGRAM_API_KEY : option string;
      (* [os.getenv("DEEPGRAM_API_KEY")] *)
  json_dumps : json_value -> string;
      (* [json.dumps] *)
  json_loads : string -> option json_value;
      (* [json.loads(chunk.decode("utf-8"))], [None] when either raises *)
  requests_post : string -> string -> list (string * string) -> result Response
      (* [requests.post(url, data=data, headers=headers)] *)
}.

(** A computation over the world that returns or raises. *)
Definition M (A : Type) : Type := world -> result A * world.

Definition ret {A} (a : A) : M A := fun w => (Ok a, w).

Definition raise {A} (e : exn) : M A := fun w => (Raise e, w).

Definition bind {A B} (m : M A) (k : A -> M B) : M B :=
  fun w =>
    match m w with
    | (Ok a, w') => k a w'
    | (Raise e, w') => (Raise e, w')
    end.

Declare Scope py_scope.
Delimit Scope py_scope with py.
Notation "x <- m ;; k" := (bind m (fun x => k))
  (at level 100, m at next level, right associativity) : py_scope.
Notation "m ;; k" := (bind m (fun _ => k))
  (at level 100, right associativity) : py_scope.
#[local] Open Scope py_scope.

Definition lift {A} (r : result A) : M A := fun w => (r, w).

Definition emit (e : event) : M unit :=
  fun w => (Ok tt, {| messages := messages w; trace := trace w ++ [e] |}).

Definition get_messages : M (list Message) := fun w => (Ok (messages w), w).

(** [st.session_state.messages.append(m)] *)
Definition append_message (m : Message) : M unit :=
  fun w => (Ok tt, {| messages := messages w ++ [m]; trace := trace w |}).

(** ** The program *)

Definition OLLAMA_URL : string := "http://localhost:11434/api/chat".
Definition DEEPGRAM_URL : string := "https://api.deepgram.com/v1/listen".

(** The end-of-turn marker tested in [stream_response]. *)
Definition IM_END : string := "<|im_end|>".

(** The dict [{"role": ..., "content": ...}] as [json.dumps] sees it. *)
Definition message_json (m : Message) : json_value :=
  JObj {[ "role" := JStr (role m); "content" := JStr (content m) ]}.

(** [{"model": model_name, "messages": messages}] *)
Definition chat_request (model_name : string) (msgs : list Message)
  : json_value :=
  JObj {[ "model" := JStr model_name;
          "messages" := JArr (message_json <$> msgs) ]}.

(** [response.raise_for_status()] *)
Definition raise_for_status (response : Response) : M unit :=
  if (400 <=? status_code response) && (status_code response <? 600)
  then raise HTTPError
  else ret tt.

(** [str(x)] for the value of [os.getenv]. *)
Definition str_of_getenv (x : option string) : string :=
  match x with
  | Some s => s
  | None => "None"
  end.

Section Program.

Context (env : Env).

(** [requests.post]: the request leaves, then a response or a
    transport failure comes back. *)
Definition post (url data : string) (headers : list (string * string))
  : M Response :=
  emit (Post url data headers) ;;
  lift (requests_post env url data headers).

(** [json.loads(chunk.decode("utf-8"))["message"]["content"]] *)
Definition chunk_content (chunk : string) : result json_value :=
  (v <- match json_loads env chunk with
        | Some v => Ok v
        | None => Raise ValueError
        end ;;
   message <- Py.getitem v "message" ;;
   Py.getitem message "content")%result.

(** The loop [for chunk in response.iter_lines(): ...] of
    [stream_response], started with [response_text] accumulated so far;
    it returns the accumulated text at loop exit. *)
Fixpoint for_chunks (lines : list string) (response_text : string)
  : M string :=
  match lines with
  | [] => ret response_text
  | chunk :: rest =>
      if bool_decide (chunk = "") then for_chunks rest response_text
      else
        content <- lift (chunk_content chunk) ;;
        stop <- lift (Py.contains IM_END content) ;;
        if (stop : bool) then ret response_text
        else
          response_text' <- lift (Py.add response_text content) ;;
          emit (AreaMarkdown response_text') ;;
          for_chunks rest response_text'
  end.

(** [stream_response(model_name, messages)], lines 17-50: the request
    (sent with [stream=True], so that the body is read line by line),
    the status check, the placeholder, the loop, the trimmed text. *)
Definition stream_response (model_name : string) (msgs : list Message)
  : M string :=
  let headers := [("Content-Type", "application/json")] in
  let data := json_dumps env (chat_request model_name msgs) in
  response <- post OLLAMA_URL data headers ;;
  raise_for_status response ;;
  emit StEmpty ;;
  response_text <- for_chunks (iter_lines response) "" ;;
  ret (PyStr.strip response_text).

(** The expression returned on a 200 status:
    [response.json().get("results", {}).get("channels", [{}])[0]
       .get("alternatives", [{}])[0].get("transcript", "").strip()] *)
Definition transcript_of (response : Response) : result string :=
  (body <- match json response with
           | Some v => Ok v
           | None => Raise ValueError
           end ;;
   results <- Py.get body "results" (JObj ∅) ;;
   channels <- Py.get results "channels" (JArr [JObj ∅]) ;;
   channel <- Py.getitem0 channels ;;
   alternatives <- Py.get channel "alternatives" (JArr [JObj ∅]) ;;
   alternative <- Py.getitem0 alternatives ;;
   transcript <- Py.get alternative "transcript" (JStr "") ;;
   Py.strip transcript)%result.

(** [transcribe_audio(audio_data)], lines 53-78. *)
Definition transcribe_audio (audio_data : string) : M string :=
  let headers :=
    [("Authorization", "Token " +:+ str_of_getenv (DEEPGRAM_API_KEY env));
     ("Content-Type", "audio/wav")] in
  response <- post DEEPGRAM_URL audio_data headers ;;
  if status_code response =? 200 then
    lift (transcript_of response)
  else
    emit (StError "Error transcribing audio") ;;
    ret "".

(** [handle_chat(user_input)], lines 81-102. The list passed to
    [stream_response] is the session's list itself; [stream_response]
    only serialises it. *)
Definition handle_chat (user_input : string) : M unit :=
  if bool_decide (user_input = "") then ret tt
  else
    append_message {| role := "user"; content := user_input |} ;;
    emit (StChatMessage "user") ;;
    emit (StMarkdown user_input) ;;
    emit (StChatMessage "assistant") ;;
    msgs <- get_messages ;;
    response_text <- stream_response "my-chatbot" msgs ;;
    append_message {| role := "assistant"; content := response_text |}.

End Program.

(** ** Vocabulary of the statements *)

(** The world [w] after the events [es] have been added to its trace. *)
Definition logged (w : world) (es : list event) : world :=
  {| messages := messages w; trace := trace w ++ es |}.

(** The texts written to the placeholder, in order. *)
Definition published (es : list event) : list string :=
  omap (fun e => match e with AreaMarkdown text => Some text | _ => None end) es.

(** The error notifications shown, in order. *)
Definition notifications (es : list event) : list string :=
  omap (fun e => match e with StError body => Some body | _ => None end) es.

(** The concatenation of the texts [cs]. *)
Definition joined (cs : list string) : string := foldr String.append "" cs.

(** The running concatenations of [cs] on top of [acc]:
    [acc + c1], [acc + c1 + c2], ... *)
Fixpoint partials (acc : string) (cs : list string) : list string :=
  match cs with
  | [] => []
  | c :: cs' => (acc +:+ c) :: partials (acc +:+ c) cs'
  end.

(** The texts in front of the first one that contains the marker. *)
Fixpoint before_sentinel (cs : list string) : list string :=
  match cs with
  | [] => []
  | c :: cs' => if PyStr.contains IM_END c then [] else c :: before_sentinel cs'
  end.

Section Chunks.

Context (env : Env).

(** A well-formed line of the stream: empty (skipped by the loop), or a
    chunk that decodes to an object whose [message.content] is a text. *)
Definition well_formed (line : string) : Prop :=
  line = "" \/ exists c, chunk_content env line = Ok (JStr c).

(** A well-formed line that does not end the turn. *)
Definition clean (line : string) : Prop :=
  line = "" \/
  exists c, chunk_content env line = Ok (JStr c)
            /\ PyStr.contains IM_END c = false.

(** The line decodes to an object with a [message.content] field. *)
Definition has_content (line : string) : Prop :=
  exists o m v,
    json_loads env line = Some (JObj o)
    /\ o !! "message" = Some (JObj m)
    /\ m !! "content" = Some v.

(** The content of a non-empty line, when it is a text. *)
Definition chunk_text (line : string) : option string :=
  if bool_decide (line = "") then None
  else match chunk_content env line with
       | Ok (JStr c) => Some c
       | _ => None
       end.

(** The contents of the chunks of a stream, in order. *)
Definition text_chunks (lines : list string) : list string :=
  omap chunk_text lines.

End Chunks.

(** The user turn that [handle_chat] records. *)
Definition user_message (user_input : string) : Message :=
  {| role := "user"; content := user_input |}.

(** The assistant turn that [handle_chat] records. *)
Definition assistant_message (text : string) : Message :=
  {| role := "assistant"; content := text |}.

(** The world in which [handle_chat] calls the streaming client: the user
    turn recorded and shown, the assistant bubble opened. *)
Definition turn_opened (user_input : string) (w : world) : world :=
  {| messages := messages w ++ [user_message user_input];
     trace := trace w ++ [StChatMessage "user"; StMarkdown user_input;
                          StChatMessage "assistant"] |}.

(** The headers of the chat request. *)
Definition chat_headers : list (string * string) :=
  [("Content-Type", "application/json")].

(** The headers of the transcription request. *)
Definition audio_headers (env : Env) : list (string * string) :=
  [("Authorization", "Token " +:+ str_of_getenv (DEEPGRAM_API_KEY env));
   ("Content-Type", "audio/wav")].

(** The request that [stream_response] sends. *)
Definition chat_post (env : Env) (model_name : string) (msgs : list Message)
  : event :=
  Post OLLAMA_URL (json_dumps env (chat_request model_name msgs)) chat_headers.

(** The request that [transcribe_audio] sends. *)
Definition audio_post (env : Env) (audio_data : string) : event :=
  Post DEEPGRAM_URL audio_data (audio_headers env).

(** [results.channels[0].alternatives[0].transcript], read strictly: every
    key present, both lists non-empty, every level of the expected kind. *)
Definition transcript_at_path (body : json_value) : option json_value :=
  match body with
  | JObj o =>
      match o !! "results" with
      | Some (JObj r) =>
          match r !! "channels" with
          | Some (JArr (JObj c :: _)) =>
              match c !! "alternatives" with
              | Some (JArr (JObj a :: _)) => a !! "transcript"
              | _ => None
              end
          | _ => None
          end
      | _ => None
      end
  | _ => None
  end.

(** Descending the path [results.channels[0].alternatives[0].transcript]
    through a JSON object stops at a key that is missing, the levels above
    it being present and of the expected kind. *)
Inductive key_missing : json_value -> Prop :=
| missing_results o :
    o !! "results" = None ->
    key_missing (JObj o)
| missing_channels o r :
    o !! "results" = Some (JObj r) ->
    r !! "channels" = None ->
    key_missing (JObj o)
| missing_alternatives o r c cs :
    o !! "results" = Some (JObj r) ->
    r !! "channels" = Some (JArr (JObj c :: cs)) ->
    c !! "alternatives" = None ->
    key_missing (JObj o)
| missing_transcript o r c cs a alts :
    o !! "results" = Some (JObj r) ->
    r !! "channels" = Some (JArr (JObj c :: cs)) ->
    c !! "alternatives" = Some (JArr (JObj a :: alts)) ->
    a !! "transcript" = None ->
    key_missing (JObj o).

(** Descending the same path reaches a ["channels"] or an
    ["alternatives"] key that is bound to the empty list. *)
Inductive empty_list_on_path : json_value -> Prop :=
| empty_channels o r :
    o !! "results" = Some (JObj r) ->
    r !! "channels" = Some (JArr []) ->
    empty_list_on_path (JObj o)
| empty_alternatives o r c cs :
    o !! "results" = Some (JObj r) ->
    r !! "channels" = Some (JArr (JObj c :: cs)) ->
    c !! "alternatives" = Some (JArr []) ->
    empty_list_on_path (JObj o).

(** A body that the return expression of [transcribe_audio] is written
    for: the path is complete and ends in a text, or it stops at a
    missing key. *)
Definition path_shaped (body : json_value) : Prop :=
  key_missing body \/ exists t, transcript_at_path body = Some (JStr t).

(** One call of a function of [main.py] on the world, with whatever the
    outside answers. *)
Inductive step : world -> world -> Prop :=
| step_handle_chat env user_input w :
    step w (handle_chat env user_input w).2
| step_transcribe_audio env audio_data w :
    step w (transcribe_audio env audio_data w).2.

(** Any number of calls, one after the other. *)
Definition steps : world -> world -> Prop := rtc step.

(** ** A concrete session

    The end-to-end scenario of the design document: the chat endpoint
    streams ["Hel"], ["lo!"] and the end-of-turn marker; the transcription
    endpoint answers with the transcript ["hello world"]. *)

Module Scenario.

Definition quoted (s : string) : string :=
  String (ascii_of_nat 34) s +:+ String (ascii_of_nat 34) "".

(** The line [{"message":{"content":"c"}}]. *)
Definition chunk_line (c : string) : string :=
  "{" +:+ quoted "message" +:+ ":{" +:+ quoted "content" +:+ ":"
      +:+ quoted c +:+ "}}".

(** The value that line decodes to. *)
Definition chunk_value (c : string) : json_value :=
  JObj {[ "message" := JObj {[ "content" := JStr c ]} ]}.

Definition chat_lines : list string :=
  [chunk_line "Hel"; chunk_line "lo!"; chunk_line "<|im_end|>"].

(** A decoder that knows the chunk lines with the contents [known] and
    nothing else. *)
Fixpoint decoder (known : list string) (line : string)
  : option json_value :=
  match known with
  | [] => None
  | c :: known' =>
      if bool_decide (line = chunk_line c) then Some (chunk_value c)
      else decoder known' line
  end.

Definition loads : string -> option json_value :=
  decoder ["Hel"; "lo!"; "<|im_end|>"; "bye<|im_end|>now"].

(** [{results:{channels:[{alternatives:[{transcript: t}]}]}}] *)
Definition transcript_body (t : string) : json_value :=
  JObj {[ "results" :=
    JObj {[ "channels" :=
      JArr [JObj {[ "alternatives" :=
        JArr [JObj {[ "transcript" := JStr t ]}] ]}] ]} ]}.

(** What each endpoint answers with. *)
Definition answer (chat audio : result Response)
    (url data : string) (headers : list (string * string))
  : result Response :=
  if bool_decide (url = OLLAMA_URL) then chat else audio.

Definition chat_ok : Response :=
  {| status_code := 200; iter_lines := chat_lines; json := None |}.

(** A stream whose second chunk carries the marker inside other text. *)
Definition chat_cut : Response :=
  {| status_code := 200;
     iter_lines := [chunk_line "Hel"; chunk_line "bye<|im_end|>now";
                    chunk_line "lo!"];
     json := None |}.

(** A stream whose second line is not JSON. *)
Definition chat_broken : Response :=
  {| status_code := 200;
     iter_lines := [chunk_line "Hel"; "<html>"; chunk_line "lo!"];
     json := None |}.

Definition audio_ok (body : json_value) : Response :=
  {| status_code := 200; iter_lines := []; json := Some body |}.

Definition failed (status : Z) : Response :=
  {| status_code := status; iter_lines := []; json := None |}.

(** A 200 answer whose body is not JSON: [response.json()] raises. *)
Definition audio_html : Response :=
  {| status_code := 200; iter_lines := ["<html>"]; json := None |}.

(** [{results:{channels:[]}}] *)
Definition no_channels : json_value :=
  JObj {[ "results" := JObj {[ "channels" := JArr [] ]} ]}.

(** [{results:{channels:[{alternatives:[]}]}}] *)
Definition no_alternatives : json_value :=
  JObj {[ "results" :=
    JObj {[ "channels" := JArr [JObj {[ "alternatives" := JArr [] ]}] ]} ]}.

(** [{results:{channels:[{}]}}]: the key ["alternatives"] is missing. *)
Definition alternatives_missing : json_value :=
  JObj {[ "results" := JObj {[ "channels" := JArr [JObj ∅] ]} ]}.

(** The session's outside world, given the two answers. The encoder is
    a stand-in: no property depends on what [json.dumps] prints. *)
Definition env_with (chat audio : result Response) : Env :=
  {| DEEPGRAM_API_KEY := Some "dg-key";
     json_dumps := fun _ => "{}";
     json_loads := loads;
     requests_post := answer chat audio |}.

(** Both endpoints answer as expected. *)
Definition env : Env :=
  env_with (Ok chat_ok) (Ok (audio_ok (transcript_body "hello world"))).

(** Both endpoints answer with an error status. *)
Definition env_down : Env :=
  env_with (Ok (failed 503)) (Ok (failed 401)).

(** The chat endpoint streams [chat_cut]. *)
Definition env_cut : Env :=
  env_with (Ok chat_cut) (Raise RequestException).

(** The chat endpoint streams [chat_broken]. *)
Definition env_broken : Env :=
  env_with (Ok chat_broken) (Raise RequestException).

(** The transcription endpoint answers 200 with [audio_html]. *)
Definition env_html : Env :=
  env_with (Raise RequestException) (Ok audio_html).

(** The transcription endpoint answers 200 with the JSON [body]. *)
Definition env_body (body : json_value) : Env :=
  env_with (Raise RequestException) (Ok (audio_ok body)).

(** A fresh session: [st.session_state.messages = []]. *)
Definition fresh : world := {| messages := []; trace := [] |}.

End Scenario.

(** ** The script around the three functions

    Lines 112-136 of [main.py]: what one run of the script does with the
    session and the two input widgets. Streamlit runs the script from the
    top at every interaction and rebuilds the page, so a run starts with
    an empty trace; lines 105-110 only draw the constant page header and
    are not part of the trace. *)

(** [for message in st.session_state.messages:] show it in a chat bubble
    of its role (lines 117-119). *)
Fixpoint show_messages (msgs : list Message) : M unit :=
  match msgs with
  | [] => ret tt
  | message :: rest =>
      emit (StChatMessage (role message)) ;;
      emit (StMarkdown (content message)) ;;
      show_messages rest
  end.

(** One run of the script. [stored] is the ["messages"] entry of the
    session state ([None] on the first run of a session); [chat_input] is
    what [st.chat_input] returns ([None] when nothing was submitted);
    [recording] is the WAV export of what [audiorecorder] returns ([None]
    when the recording is empty, hence falsy). *)
Definition main (env : Env) (chat_input recording : option string)
    (stored : option (list Message)) : result unit * world :=
  (msgs <- get_messages ;;
   show_messages msgs ;;
   match chat_input with
   | Some user_input =>
       if bool_decide (user_input = "") then ret tt
       else handle_chat env user_input
   | None => ret tt
   end ;;
   match recording with
   | Some wav =>
       transcript <- transcribe_audio env wav ;;
       if bool_decide (transcript = "") then ret tt
       else handle_chat env transcript
   | None => ret tt
   end)
  {| messages := default [] stored; trace := [] |}.

(** ** Further vocabulary *)

(** The bubbles that show the conversation [msgs]. *)
Definition history (msgs : list Message) : list event :=
  msgs ≫= fun m => [StChatMessage (role m); StMarkdown (content m)].

(** The HTTP requests among the events, in order. *)
Definition requests (es : list event) : list event :=
  omap (fun e => match e with Post _ _ _ => Some e | _ => None end) es.

(** No whitespace at either end. *)
Definition trimmed (s : string) : bool :=
  PyStr.starts_clean s && PyStr.ends_clean s.

(** Each text is the one before it (the first: [prev]) with something
    appended. *)
Fixpoint growing (prev : string) (texts : list string) : Prop :=
  match texts with
  | [] => True
  | text :: rest => (exists c, text = prev +:+ c) /\ growing text rest
  end.

(** The conversation is a sequence of completed turns: a user message,
    its assistant reply, a user message, its reply, and so on. *)
Fixpoint alternating (msgs : list Message) : bool :=
  match msgs with
  | [] => true
  | u :: a :: rest =>
      bool_decide (role u = "user") && bool_decide (role a = "assistant")
      && alternating rest
  | [_] => false
  end.

(** The content is a text. *)
Definition is_text (v : json_value) : bool :=
  match v with
  | JStr _ => true
  | _ => false
  end.

(** ** Further concrete sessions *)

Module Cases.

(** The line [{"message":{"content": v}}] for a content printed as
  [printed]. *)
Definition content_line (printed : string) : string :=
"{" +:+ Scenario.quoted "message" +:+ ":{" +:+ Scenario.quoted "content"
    +:+ ":" +:+ printed +:+ "}}".

(** The value it decodes to when [printed] denotes [v]. *)
Definition content_value (v : json_value) : json_value :=
JObj {[ "message" := JObj {[ "content" := v ]} ]}.

(** A decoder that knows the lines of [table] and nothing else. *)
Fixpoint decoder (table : list (string * json_value)) (line : string)
: option json_value :=
match table with
| [] => None
| (printed, v) :: table' =>
    if bool_decide (line = content_line printed)
    then Some (content_value v)
    else decoder table' line
end.

Definition table : list (string * json_value) :=
[(Scenario.quoted "Hel", JStr "Hel");
 (Scenario.quoted "lo! ", JStr "lo! ");
 (Scenario.quoted "a<|im_", JStr "a<|im_");
 (Scenario.quoted "end|>b", JStr "end|>b");
 ("5", JInt 5);
 ("null", JNull);
 ("[" +:+ Scenario.quoted "<|im_end|>" +:+ "]", JArr [JStr "<|im_end|>"])].

Definition stream (status : Z) (lines : list string) : Response :=
{| status_code := status; iter_lines := lines; json := None |}.

(** The outside world with a given key and given answers of the two
  endpoints. *)
Definition env_of (key : option string) (chat audio : result Response)
: Env :=
{| DEEPGRAM_API_KEY := key;
   json_dumps := fun _ => "{}";
   json_loads := decoder table;
   requests_post := Scenario.answer chat audio |}.

(** The chat endpoint streams the given lines with status 200; the
  transcription endpoint answers 200 with the transcript [t]. *)
Definition env_lines (lines : list string) (t : json_value) : Env :=
env_of (Some "dg-key") (Ok (stream 200 lines))
  (Ok (Scenario.audio_ok
         (JObj {[ "results" :=
            JObj {[ "channels" :=
              JArr [JObj {[ "alternatives" :=
                JArr [JObj {[ "transcript" := t ]}] ]}] ]} ]}))).

(** Two chunks and no marker; a keep-alive line in between. *)
Definition two_chunks : list string :=
[content_line (Scenario.quoted "Hel"); "";
 content_line (Scenario.quoted "lo! ")].

(** The marker split over two chunks. *)
Definition split_marker : list string :=
[content_line (Scenario.quoted "a<|im_");
 content_line (Scenario.quoted "end|>b")].

(** Neither endpoint can be reached. *)
Definition env_offline : Env :=
env_of None (Raise RequestException) (Raise RequestException).

(** The conversation after one completed turn. *)
Definition one_turn : list Message :=
[user_message "Hi"; assistant_message "Hello!"].

End Cases.
(** * Properties *)

(** ** Strings *)

Module PyStrFacts.
Import PyStr.

Lemma sapp_nil_l (s : string) : "" +:+ s = s.
Proof. reflexivity. Qed.

Lemma sapp_cons (c : ascii) (s t : string) :
  String c s +:+ t = String c (s +:+ t).
Proof. reflexivity. Qed.

Lemma sapp_nil_r (s : string) : s +:+ "" = s.
Proof. induction s as [|c s IH]; [done | by rewrite sapp_cons, IH]. Qed.

Lemma sapp_assoc (s t u : string) : (s +:+ t) +:+ u = s +:+ (t +:+ u).
Proof. induction s as [|c s IH]; [done | by rewrite !sapp_cons, IH]. Qed.

Lemma prefix_iff (p s : string) :
  String.prefix p s = true <-> exists r, s = p +:+ r.
Proof.
  revert s. induction p as [|a p IH]; intros s.
  - split; [intros _; by exists s | by destruct s].
  - destruct s as [|b s]; simpl.
    + split; [done | by intros [r Hr]].
    + setoid_rewrite sapp_cons.
      destruct (ascii_dec a b) as [->|Hne].
      * rewrite IH. split; intros [r Hr]; exists r; congruence.
      * split; [done | intros [r Hr]; congruence].
Qed.

(** [contains] is the substring test of Python's [in]. *)
Lemma contains_iff (needle hay : string) :
  contains needle hay = true <->
  exists l r, hay = l +:+ needle +:+ r.
Proof.
  induction hay as [|b hay IH]; cbn [contains].
  - rewrite orb_false_r, prefix_iff. split.
    + intros [r Hr]. by exists "", r.
    + intros [[|? l] [r Hr]]; [by exists r | by rewrite sapp_cons in Hr].
  - rewrite orb_true_iff, prefix_iff, IH. split.
    + intros [[r Hr] | (l & r & Hr)].
      * by exists "", r.
      * exists (String b l), r. by rewrite sapp_cons, Hr.
    + intros ([|a l] & r & Hr).
      * left. by exists r.
      * right. rewrite sapp_cons in Hr. injection Hr as -> ->. by exists l, r.
Qed.

Lemma lstrip_spec (s : string) :
  exists l, s = l +:+ lstrip s /\ all_space l = true
            /\ starts_clean (lstrip s) = true.
Proof.
  induction s as [|c s (l & Hl & Hsp & Hc)]; simpl.
  - by exists "".
  - destruct (isspace c) eqn:Hc'.
    + exists (String c l). rewrite sapp_cons, <- Hl. simpl. by rewrite Hc'.
    + exists "". simpl. by rewrite Hc'.
Qed.

Lemma rstrip_spec (s : string) :
  exists r, s = rstrip s +:+ r /\ all_space r = true
            /\ ends_clean (rstrip s) = true.
Proof.
  induction s as [|c s (r & Hr & Hsp & Hc)]; simpl.
  - by exists "".
  - destruct (rstrip s) as [|d t] eqn:Hrs.
    + rewrite sapp_nil_l in Hr. subst r. destruct (isspace c) eqn:Hc'.
      * exists (String c s). simpl. by rewrite Hc', Hsp.
      * exists s. simpl. by rewrite Hc'.
    + exists r. rewrite Hr at 1. done.
Qed.

Lemma rstrip_starts_clean (s : string) :
  starts_clean s = true -> starts_clean (rstrip s) = true.
Proof.
  destruct s as [|c s]; simpl; [done|].
  destruct (rstrip s); [|done].
  destruct (isspace c) eqn:Hc; simpl; [done | by rewrite Hc].
Qed.

(** [strip] removes a run of whitespace at each end and nothing else,
    and leaves no whitespace at either end. *)
Lemma strip_spec (s : string) :
  exists l r,
    s = l +:+ strip s +:+ r
    /\ all_space l = true /\ all_space r = true
    /\ starts_clean (strip s) = true /\ ends_clean (strip s) = true.
Proof.
  destruct (lstrip_spec s) as (l & Hl & Hsl & Hcl).
  destruct (rstrip_spec (lstrip s)) as (r & Hr & Hsr & Hcr).
  exists l, r. unfold strip. rewrite <- Hr, <- Hl.
  repeat split; auto using rstrip_starts_clean.
Qed.

Lemma lstrip_all_space (s : string) :
  all_space s = true -> lstrip s = "".
Proof.
  induction s as [|c s IH]; simpl; [done|].
  destruct (isspace c); [exact IH | done].
Qed.

(** A text of whitespace only is trimmed to the empty text. *)
Lemma strip_all_space (s : string) :
  all_space s = true -> strip s = "".
Proof. intros Hs. unfold strip. by rewrite lstrip_all_space. Qed.

End PyStrFacts.

(** ** The world and the monad *)

Lemma logged_nil (w : world) : logged w [] = w.
Proof. destruct w as [ms t]. unfold logged; simpl. by rewrite app_nil_r. Qed.

Lemma logged_logged (w : world) (es1 es2 : list event) :
  logged (logged w es1) es2 = logged w (es1 ++ es2).
Proof. unfold logged; simpl. by rewrite app_assoc. Qed.

Lemma omap_cons {A B} (f : A -> option B) (x : A) (l : list A) :
  omap f (x :: l) = match f x with
                    | Some y => y :: omap f l
                    | None => omap f l
                    end.
Proof. reflexivity. Qed.

Lemma published_app (es1 es2 : list event) :
  published (es1 ++ es2) = published es1 ++ published es2.
Proof. apply omap_app. Qed.

Lemma published_markdowns (ts : list string) :
  published (AreaMarkdown <$> ts) = ts.
Proof.
  induction ts as [|t ts IH]; [done|].
  rewrite fmap_cons. unfold published in *. rewrite omap_cons. by f_equal.
Qed.

(** ** The chunk loop *)

Section Loop.

Context (env : Env).

(** One iteration of the loop, spelled out. *)
Lemma for_chunks_cons (chunk : string) (rest : list string)
    (acc : string) (w : world) :
  for_chunks env (chunk :: rest) acc w =
  if bool_decide (chunk = "") then for_chunks env rest acc w
  else match chunk_content env chunk with
       | Raise e => (Raise e, w)
       | Ok content =>
           match Py.contains IM_END content with
           | Raise e => (Raise e, w)
           | Ok true => (Ok acc, w)
           | Ok false =>
               match Py.add acc content with
               | Raise e => (Raise e, w)
               | Ok text =>
                   for_chunks env rest text (logged w [AreaMarkdown text])
               end
           end
       end.
Proof.
  simpl. case_bool_decide; [done|].
  unfold bind, lift.
  destruct (chunk_content env chunk) as [content|e]; [|done].
  destruct (Py.contains IM_END content) as [[|]|e]; [done| |done].
  by destruct (Py.add acc content).
Qed.

Lemma for_chunks_empty_line (rest : list string) (acc : string) (w : world) :
  for_chunks env ("" :: rest) acc w = for_chunks env rest acc w.
Proof. by rewrite for_chunks_cons. Qed.

Lemma for_chunks_text (chunk c : string) (rest : list string)
    (acc : string) (w : world) :
  chunk <> "" ->
  chunk_content env chunk = Ok (JStr c) ->
  PyStr.contains IM_END c = false ->
  for_chunks env (chunk :: rest) acc w =
  for_chunks env rest (acc +:+ c) (logged w [AreaMarkdown (acc +:+ c)]).
Proof.
  intros Hne Hc Hno. rewrite for_chunks_cons, Hc. simpl. rewrite Hno.
  by case_bool_decide.
Qed.

Lemma for_chunks_sentinel (chunk c : string) (rest : list string)
    (acc : string) (w : world) :
  chunk <> "" ->
  chunk_content env chunk = Ok (JStr c) ->
  PyStr.contains IM_END c = true ->
  for_chunks env (chunk :: rest) acc w = (Ok acc, w).
Proof.
  intros Hne Hc Hno. rewrite for_chunks_cons, Hc. simpl. rewrite Hno.
  by case_bool_decide.
Qed.

Lemma for_chunks_malformed (chunk : string) (e : exn) (rest : list string)
    (acc : string) (w : world) :
  chunk <> "" ->
  chunk_content env chunk = Raise e ->
  for_chunks env (chunk :: rest) acc w = (Raise e, w).
Proof.
  intros Hne Hc. rewrite for_chunks_cons, Hc. by case_bool_decide.
Qed.

Lemma text_chunks_empty_line (lines : list string) :
  text_chunks env ("" :: lines) = text_chunks env lines.
Proof. reflexivity. Qed.

Lemma text_chunks_cons (line c : string) (lines : list string) :
  line <> "" ->
  chunk_content env line = Ok (JStr c) ->
  text_chunks env (line :: lines) = c :: text_chunks env lines.
Proof.
  intros Hne Hc. unfold text_chunks. rewrite omap_cons.
  unfold chunk_text at 1. rewrite Hc. by case_bool_decide.
Qed.

Lemma chunk_text_clean (line : string) :
  clean env line ->
  (line = "" /\ chunk_text env line = None)
  \/ (exists c, line <> "" /\ chunk_content env line = Ok (JStr c)
                /\ PyStr.contains IM_END c = false
                /\ chunk_text env line = Some c).
Proof.
  unfold chunk_text. intros [->|(c & Hc & Hno)]; [by left|].
  case_bool_decide as Hl; [by left|].
  right. exists c. by rewrite Hc.
Qed.

(** Over lines that are all [clean] the loop accumulates every content
    and publishes every running concatenation; it then goes on with the
    rest of the stream. *)
Lemma for_chunks_clean_prefix (pre rest : list string) :
  Forall (clean env) pre ->
  forall (acc : string) (w : world),
    for_chunks env (pre ++ rest) acc w =
    for_chunks env rest (acc +:+ joined (text_chunks env pre))
      (logged w (AreaMarkdown <$> partials acc (text_chunks env pre))).
Proof.
  induction 1 as [|line pre Hline _ IH]; intros acc w.
  - simpl. by rewrite PyStrFacts.sapp_nil_r, logged_nil.
  - rewrite <- app_comm_cons. unfold text_chunks. rewrite omap_cons.
    destruct (chunk_text_clean line Hline)
      as [[-> ->]|(c & Hne & Hc & Hno & ->)].
    + rewrite for_chunks_empty_line. apply IH.
    + rewrite (for_chunks_text line c) by done. rewrite IH.
      simpl. unfold text_chunks.
      by rewrite logged_logged, PyStrFacts.sapp_assoc.
Qed.

End Loop.

(** ** Running concatenations *)

Lemma length_partials (acc : string) (cs : list string) :
  length (partials acc cs) = length cs.
Proof. revert acc. induction cs as [|c cs IH]; intros acc; simpl; [done | by rewrite IH]. Qed.

Lemma partials_head (acc : string) (cs : list string) :
  partials acc cs !! 0%nat = (String.append acc) <$> cs !! 0%nat.
Proof. by destruct cs. Qed.

Lemma partials_succ (acc : string) (cs : list string) (i : nat) (p c : string) :
  partials acc cs !! i = Some p ->
  cs !! S i = Some c ->
  partials acc cs !! S i = Some (p +:+ c).
Proof.
  revert acc i. induction cs as [|c0 cs IH]; intros acc i Hp Hc; [done|].
  destruct i as [|i]; simpl in *.
  - injection Hp as <-. rewrite partials_head. by rewrite Hc.
  - by apply IH.
Qed.

Lemma before_sentinel_spec (cs : list string) :
  exists rest,
    cs = before_sentinel cs ++ rest
    /\ Forall (fun c => PyStr.contains IM_END c = false) (before_sentinel cs)
    /\ match rest with
       | [] => True
       | c :: _ => PyStr.contains IM_END c = true
       end.
Proof.
  induction cs as [|c cs (rest & Hcs & Hall & Hrest)]; simpl.
  - by exists [].
  - destruct (PyStr.contains IM_END c) eqn:Hc.
    + by exists (c :: cs).
    + exists rest. split; [simpl; by rewrite <- Hcs|].
      split; [by constructor | done].
Qed.

(** ** The streaming client *)

Section Streaming.

Context (env : Env).

(** The body of [stream_response], spelled out. *)
Lemma stream_response_eq (model_name : string) (msgs : list Message)
    (w : world) :
  stream_response env model_name msgs w =
  match requests_post env OLLAMA_URL
          (json_dumps env (chat_request model_name msgs)) chat_headers with
  | Raise e => (Raise e, logged w [chat_post env model_name msgs])
  | Ok r =>
      if (400 <=? status_code r) && (status_code r <? 600)
      then (Raise HTTPError, logged w [chat_post env model_name msgs])
      else
        match for_chunks env (iter_lines r) ""
                (logged w [chat_post env model_name msgs; StEmpty]) with
        | (Ok text, w') => (Ok (PyStr.strip text), w')
        | (Raise e, w') => (Raise e, w')
        end
  end.
Proof.
  unfold stream_response, post, bind, lift, raise_for_status. simpl.
  fold chat_headers. fold (chat_post env model_name msgs).
  fold (logged w [chat_post env model_name msgs]).
  destruct (requests_post env _ _ _) as [r|e]; [|done].
  destruct ((400 <=? status_code r) && (status_code r <? 600)); [done|].
  unfold ret, emit. simpl.
  replace ({| messages := messages w;
              trace := (trace w ++ [chat_post env model_name msgs]) ++ [StEmpty] |})
    with (logged w [chat_post env model_name msgs; StEmpty])
    by (unfold logged; by rewrite <- app_assoc).
  by destruct (for_chunks env _ _ _) as [[text|e] w'].
Qed.

Lemma http_failure_iff (r : Response) :
  (400 <=? status_code r) && (status_code r <? 600) = true
  <-> 400 <= status_code r < 600.
Proof. rewrite andb_true_iff, Z.leb_le, Z.ltb_lt. done. Qed.

Lemma stream_response_http_error (model_name : string)
    (msgs : list Message) (w : world) (r : Response) :
  requests_post env OLLAMA_URL
    (json_dumps env (chat_request model_name msgs)) chat_headers = Ok r ->
  400 <= status_code r < 600 ->
  stream_response env model_name msgs w =
  (Raise HTTPError, logged w [chat_post env model_name msgs]).
Proof.
  intros Hr Hs. rewrite stream_response_eq, Hr.
  apply http_failure_iff in Hs. by rewrite Hs.
Qed.

Lemma stream_response_streaming (model_name : string)
    (msgs : list Message) (w : world) (r : Response) :
  requests_post env OLLAMA_URL
    (json_dumps env (chat_request model_name msgs)) chat_headers = Ok r ->
  ~ (400 <= status_code r < 600) ->
  stream_response env model_name msgs w =
  match for_chunks env (iter_lines r) ""
          (logged w [chat_post env model_name msgs; StEmpty]) with
  | (Ok text, w') => (Ok (PyStr.strip text), w')
  | (Raise e, w') => (Raise e, w')
  end.
Proof.
  intros Hr Hs. rewrite stream_response_eq, Hr.
  rewrite <- http_failure_iff in Hs. by apply not_true_is_false in Hs as ->.
Qed.

(** The loop writes to the placeholder and does nothing else. *)
Lemma for_chunks_frame (lines : list string) (acc : string) (w : world) :
  exists texts,
    (for_chunks env lines acc w).2 = logged w (AreaMarkdown <$> texts).
Proof.
  revert acc w. induction lines as [|chunk rest IH]; intros acc w.
  - exists []. simpl. by rewrite logged_nil.
  - rewrite for_chunks_cons.
    assert (Hstay : exists texts, w = logged w (AreaMarkdown <$> texts))
      by (exists []; by rewrite logged_nil).
    case_bool_decide; [apply IH|].
    destruct (chunk_content env chunk) as [content|e]; [|done].
    destruct (Py.contains IM_END content) as [[|]|e]; [done| |done].
    destruct (Py.add acc content) as [text|e]; [|done].
    destruct (IH text (logged w [AreaMarkdown text])) as [texts ->].
    exists (text :: texts). by rewrite logged_logged.
Qed.

(** Every call of the streaming client starts by sending its request,
    and leaves the session state alone. *)
Lemma stream_response_frame (model_name : string) (msgs : list Message)
    (w : world) :
  exists es,
    (stream_response env model_name msgs w).2 =
    logged w (chat_post env model_name msgs :: es).
Proof.
  rewrite stream_response_eq.
  destruct (requests_post env _ _ _) as [r|e]; [|by exists []].
  destruct ((400 <=? status_code r) && (status_code r <? 600));
    [by exists []|].
  destruct (for_chunks_frame (iter_lines r) ""
              (logged w [chat_post env model_name msgs; StEmpty]))
    as [texts Hw].
  exists (StEmpty :: (AreaMarkdown <$> texts)).
  destruct (for_chunks env _ _ _) as [[text|e] w']; simpl in *; subst w';
    by rewrite logged_logged.
Qed.

(** The loop ignores everything from a chunk that carries the marker
    onwards. *)
Lemma for_chunks_cut (pre post : list string) (line c : string) :
  line <> "" ->
  chunk_content env line = Ok (JStr c) ->
  PyStr.contains IM_END c = true ->
  forall (acc : string) (w : world),
    for_chunks env (pre ++ line :: post) acc w = for_chunks env pre acc w.
Proof.
  intros Hne Hc Hin. induction pre as [|chunk pre IH]; intros acc w.
  - change ([] ++ line :: post) with (line :: post).
    by rewrite (for_chunks_sentinel env line c).
  - rewrite <- app_comm_cons, !for_chunks_cons.
    case_bool_decide; [apply IH|].
    destruct (chunk_content env chunk) as [content|e]; [|done].
    destruct (Py.contains IM_END content) as [[|]|e]; [done| |done].
    destruct (Py.add acc content) as [text|e]; [|done].
    apply IH.
Qed.

Lemma for_chunks_clean (pre : list string) (acc : string) (w : world) :
  Forall (clean env) pre ->
  for_chunks env pre acc w =
  (Ok (acc +:+ joined (text_chunks env pre)),
   logged w (AreaMarkdown <$> partials acc (text_chunks env pre))).
Proof.
  intros Hpre. rewrite <- (app_nil_r pre) at 1.
  by rewrite for_chunks_clean_prefix.
Qed.

(** Over well-formed lines the loop accumulates and publishes the
    contents in front of the first one that carries the marker. *)
Lemma for_chunks_well_formed (lines : list string) :
  Forall (well_formed env) lines ->
  forall (acc : string) (w : world),
    for_chunks env lines acc w =
    (Ok (acc +:+ joined (before_sentinel (text_chunks env lines))),
     logged w (AreaMarkdown <$>
                 partials acc (before_sentinel (text_chunks env lines)))).
Proof.
  induction 1 as [|line lines Hline _ IH]; intros acc w.
  - simpl. by rewrite PyStrFacts.sapp_nil_r, logged_nil.
  - destruct (decide (line = "")) as [->|Hne].
    + rewrite for_chunks_empty_line, text_chunks_empty_line. apply IH.
    + destruct Hline as [->|[c Hc]]; [done|].
      rewrite (text_chunks_cons env line c) by done.
      rewrite for_chunks_cons, Hc. case_bool_decide; [done|]. simpl.
      destruct (PyStr.contains IM_END c) eqn:Hin; simpl.
      * by rewrite PyStrFacts.sapp_nil_r, logged_nil.
      * by rewrite IH, logged_logged, PyStrFacts.sapp_assoc.
Qed.

(** A chunk without a [message.content] field makes the decoding
    expression raise, and only such a chunk does. *)
Lemma chunk_content_raises (line : string) :
  (exists e, chunk_content env line = Raise e) <-> ~ has_content env line.
Proof.
  unfold chunk_content, has_content. split.
  - intros [e He] (o & m & v & Hl & Hm & Hc).
    rewrite Hl in He. simpl in He. rewrite Hm in He. simpl in He.
    by rewrite Hc in He.
  - intros Hno. destruct (json_loads env line) as [v|]; [|by eexists].
    destruct v as [| | | | |l|o]; try by eexists.
    simpl. destruct (o !! "message") as [msg|] eqn:Hm; [|by eexists].
    destruct msg as [| | | | |l|m]; try by eexists.
    simpl. destruct (m !! "content") as [v|] eqn:Hc; [|by eexists].
    destruct Hno. by exists o, m, v.
Qed.

End Streaming.

(** ** Properties of the streaming client *)

Lemma chunk_content_value (env : Env) (line c : string) :
  json_loads env line = Some (Scenario.chunk_value c) ->
  chunk_content env line = Ok (JStr c).
Proof.
  intros Hl. unfold chunk_content. rewrite Hl. unfold Scenario.chunk_value.
  simpl. rewrite lookup_singleton_eq. simpl. by rewrite lookup_singleton_eq.
Qed.

(** C2. [stream_response] stops accumulating at the first chunk whose
    content contains the end-of-turn marker and returns the text
    accumulated from the chunks in front of it, with the whitespace at
    both ends removed; for the stream of the three chunks with contents
    "Hel", "lo!" and the marker it returns "Hello!". *)
Theorem stream_response_stops_at_sentinel
    (env : Env) (model_name : string) (msgs : list Message) (w : world)
    (r : Response) :
  requests_post env OLLAMA_URL
    (json_dumps env (chat_request model_name msgs)) chat_headers = Ok r ->
  ~ (400 <= status_code r < 600) ->
  (forall (pre post : list string) (line c : string),
      iter_lines r = pre ++ line :: post ->
      Forall (clean env) pre ->
      line <> "" ->
      chunk_content env line = Ok (JStr c) ->
      PyStr.contains IM_END c = true ->
      let accumulated := joined (text_chunks env pre) in
      stream_response env model_name msgs w =
        (Ok (PyStr.strip accumulated),
         logged w (chat_post env model_name msgs :: StEmpty ::
                   (AreaMarkdown <$> partials "" (text_chunks env pre))))
      /\ exists l t,
           accumulated = l +:+ PyStr.strip accumulated +:+ t
           /\ PyStr.all_space l = true /\ PyStr.all_space t = true
           /\ PyStr.starts_clean (PyStr.strip accumulated) = true
           /\ PyStr.ends_clean (PyStr.strip accumulated) = true)
  /\ (iter_lines r =
        [Scenario.chunk_line "Hel"; Scenario.chunk_line "lo!";
         Scenario.chunk_line "<|im_end|>"] ->
      json_loads env (Scenario.chunk_line "Hel")
        = Some (Scenario.chunk_value "Hel") ->
      json_loads env (Scenario.chunk_line "lo!")
        = Some (Scenario.chunk_value "lo!") ->
      json_loads env (Scenario.chunk_line "<|im_end|>")
        = Some (Scenario.chunk_value "<|im_end|>") ->
      (stream_response env model_name msgs w).1 = Ok "Hello!").
Proof.
  intros Hr Hs.
  assert (Hgen : forall (pre post : list string) (line c : string),
      iter_lines r = pre ++ line :: post ->
      Forall (clean env) pre ->
      line <> "" ->
      chunk_content env line = Ok (JStr c) ->
      PyStr.contains IM_END c = true ->
      stream_response env model_name msgs w =
        (Ok (PyStr.strip (joined (text_chunks env pre))),
         logged w (chat_post env model_name msgs :: StEmpty ::
                   (AreaMarkdown <$> partials "" (text_chunks env pre))))).
  { intros pre post line c Hlines Hpre Hne Hc Hin.
    rewrite (stream_response_streaming env model_name msgs w r Hr Hs), Hlines.
    rewrite (for_chunks_cut env pre post line c Hne Hc Hin).
    rewrite (for_chunks_clean env pre) by done.
    by rewrite logged_logged. }
  split.
  - intros pre post line c Hlines Hpre Hne Hc Hin accumulated.
    split; [by apply (Hgen pre post line c)|].
    apply PyStrFacts.strip_spec.
  - intros Hlines H1 H2 H3.
    apply chunk_content_value in H1, H2, H3.
    assert (Hpre : Forall (clean env)
                     [Scenario.chunk_line "Hel"; Scenario.chunk_line "lo!"])
      by (constructor; [|constructor; [|constructor]];
          right; eexists; (split; [eassumption | done])).
    rewrite (Hgen [Scenario.chunk_line "Hel"; Scenario.chunk_line "lo!"] []
               (Scenario.chunk_line "<|im_end|>") "<|im_end|>"
               Hlines Hpre ltac:(done) H3 eq_refl).
    by rewrite (text_chunks_cons env _ "Hel"), (text_chunks_cons env _ "lo!").
Qed.

Lemma stream_response_stops_at_sentinel_witness :
  stream_response Scenario.env "my-chatbot" [user_message "Hi"] Scenario.fresh
  = (Ok "Hello!",
     logged Scenario.fresh
       [chat_post Scenario.env "my-chatbot" [user_message "Hi"]; StEmpty;
        AreaMarkdown "Hel"; AreaMarkdown "Hello!"])
  /\ (stream_response Scenario.env "my-chatbot" [user_message "Hi"]
        Scenario.fresh).1 = Ok "Hello!".
Proof.
  pose proof (stream_response_stops_at_sentinel Scenario.env "my-chatbot"
                [user_message "Hi"] Scenario.fresh Scenario.chat_ok
                eq_refl ltac:(simpl; lia)) as [Hgen Hex].
  split.
  - apply (Hgen [Scenario.chunk_line "Hel"; Scenario.chunk_line "lo!"] []
             (Scenario.chunk_line "<|im_end|>") "<|im_end|>").
    + reflexivity.
    + constructor; [|constructor; [|constructor]];
        right; eexists; split; vm_compute; reflexivity.
    + vm_compute. discriminate.
    + vm_compute. reflexivity.
    + vm_compute. reflexivity.
  - apply Hex; reflexivity.
Defined.

(** C3. Over a stream of well-formed chunks the texts that
    [stream_response] writes to the placeholder are the running
    concatenations of the contents in front of the first chunk that
    carries the end-of-turn marker: the first is the first content, each
    later one is the previous one followed by the content of its chunk,
    and nothing is written for the chunk with the marker or after it. *)
Theorem published_partials_prefix_monotonic
    (env : Env) (model_name : string) (msgs : list Message) (w : world)
    (r : Response) :
  requests_post env OLLAMA_URL
    (json_dumps env (chat_request model_name msgs)) chat_headers = Ok r ->
  ~ (400 <= status_code r < 600) ->
  Forall (well_formed env) (iter_lines r) ->
  exists (es : list event) (cs rest : list string),
    trace (stream_response env model_name msgs w).2 = trace w ++ es
    /\ text_chunks env (iter_lines r) = cs ++ rest
    /\ Forall (fun c => PyStr.contains IM_END c = false) cs
    /\ match rest with
       | [] => True
       | c :: _ => PyStr.contains IM_END c = true
       end
    /\ length (published es) = length cs
    /\ (forall c, cs !! 0%nat = Some c -> published es !! 0%nat = Some c)
    /\ (forall (i : nat) (p c : string),
          published es !! i = Some p ->
          cs !! S i = Some c ->
          published es !! S i = Some (p +:+ c)).
Proof.
  intros Hr Hs Hwf.
  destruct (before_sentinel_spec (text_chunks env (iter_lines r)))
    as (rest & Hsplit & Hclean & Hrest).
  set (cs := before_sentinel (text_chunks env (iter_lines r))) in *.
  exists (chat_post env model_name msgs :: StEmpty ::
          (AreaMarkdown <$> partials "" cs)), cs, rest.
  assert (Hpub : published (chat_post env model_name msgs :: StEmpty ::
                            (AreaMarkdown <$> partials "" cs))
                 = partials "" cs)
    by apply published_markdowns.
  rewrite Hpub.
  split; [|split; [done|split; [done|split; [done|split; [|split]]]]].
  - rewrite (stream_response_streaming env model_name msgs w r Hr Hs).
    rewrite (for_chunks_well_formed env (iter_lines r) Hwf). simpl.
    by rewrite <- app_assoc.
  - apply length_partials.
  - intros c Hc. by rewrite partials_head, Hc.
  - apply partials_succ.
Qed.

Lemma published_partials_prefix_monotonic_witness :
  exists es : list event,
    trace (stream_response Scenario.env "my-chatbot" [user_message "Hi"]
             Scenario.fresh).2 = trace Scenario.fresh ++ es
    /\ published es = ["Hel"; "Hello!"].
Proof.
  destruct (published_partials_prefix_monotonic Scenario.env "my-chatbot"
              [user_message "Hi"] Scenario.fresh Scenario.chat_ok
              eq_refl ltac:(simpl; lia))
    as (es & cs & rest & Htrace & _).
  - constructor; [|constructor; [|constructor; [|constructor]]];
      right; eexists; vm_compute; reflexivity.
  - exists es. split; [exact Htrace|].
    change (trace Scenario.fresh ++ es) with es in Htrace.
    rewrite <- Htrace. vm_compute. reflexivity.
Defined.

(** C9. A chunk whose content contains the end-of-turn marker contributes
    nothing: the return value of [stream_response] and the texts it
    publishes are those of the loop run over the lines in front of that
    chunk alone, whatever the chunk holds around the marker and whatever
    follows it; when those lines are clean they are the trimmed
    concatenation and the running concatenations of their contents. *)
Theorem sentinel_chunk_is_discarded
    (env : Env) (model_name : string) (msgs : list Message) (w : world)
    (r : Response) (pre post : list string) (line c : string) :
  requests_post env OLLAMA_URL
    (json_dumps env (chat_request model_name msgs)) chat_headers = Ok r ->
  ~ (400 <= status_code r < 600) ->
  iter_lines r = pre ++ line :: post ->
  line <> "" ->
  chunk_content env line = Ok (JStr c) ->
  PyStr.contains IM_END c = true ->
  stream_response env model_name msgs w =
    match for_chunks env pre ""
            (logged w [chat_post env model_name msgs; StEmpty]) with
    | (Ok text, w') => (Ok (PyStr.strip text), w')
    | (Raise e, w') => (Raise e, w')
    end
  /\ (Forall (clean env) pre ->
      exists es,
        stream_response env model_name msgs w =
          (Ok (PyStr.strip (joined (text_chunks env pre))), logged w es)
        /\ published es = partials "" (text_chunks env pre)).
Proof.
  intros Hr Hs Hlines Hne Hc Hin.
  assert (Heq : stream_response env model_name msgs w =
    match for_chunks env pre ""
            (logged w [chat_post env model_name msgs; StEmpty]) with
    | (Ok text, w') => (Ok (PyStr.strip text), w')
    | (Raise e, w') => (Raise e, w')
    end).
  { rewrite (stream_response_streaming env model_name msgs w r Hr Hs), Hlines.
    by rewrite (for_chunks_cut env pre post line c Hne Hc Hin). }
  split; [exact Heq|].
  intros Hpre.
  exists (chat_post env model_name msgs :: StEmpty ::
          (AreaMarkdown <$> partials "" (text_chunks env pre))).
  split; [|apply published_markdowns].
  rewrite Heq, (for_chunks_clean env pre) by done.
  by rewrite logged_logged.
Qed.

Lemma sentinel_chunk_is_discarded_witness :
  stream_response Scenario.env_cut "my-chatbot" [user_message "Hi"]
    Scenario.fresh
  = (Ok "Hel",
     logged Scenario.fresh
       [chat_post Scenario.env_cut "my-chatbot" [user_message "Hi"]; StEmpty;
        AreaMarkdown "Hel"]).
Proof.
  destruct (sentinel_chunk_is_discarded Scenario.env_cut "my-chatbot" [user_message "Hi"] Scenario.fresh
              Scenario.chat_cut [Scenario.chunk_line "Hel"]
              [Scenario.chunk_line "lo!"]
              (Scenario.chunk_line "bye<|im_end|>now") "bye<|im_end|>now"
              eq_refl ltac:(simpl; lia) eq_refl ltac:(vm_compute; discriminate)
              eq_refl eq_refl)
    as [Heq _].
  rewrite Heq. vm_compute. reflexivity.
Defined.

(** ** The orchestrator *)

Section Orchestrator.

Context (env : Env).

(** The body of [handle_chat] on a non-empty input, spelled out. *)
Lemma handle_chat_eq (user_input : string) (w : world) :
  user_input <> "" ->
  handle_chat env user_input w =
  match stream_response env "my-chatbot"
          (messages w ++ [user_message user_input])
          (turn_opened user_input w) with
  | (Ok text, w') =>
      (Ok tt, {| messages := messages w' ++ [assistant_message text];
                 trace := trace w' |})
  | (Raise e, w') => (Raise e, w')
  end.
Proof.
  intros Hne. unfold handle_chat. case_bool_decide; [done|].
  unfold bind, append_message, emit, get_messages. simpl.
  rewrite <- !app_assoc. simpl.
  fold (user_message user_input). fold (turn_opened user_input w).
  by destruct (stream_response env _ _ _) as [[text|e] w'].
Qed.

Lemma handle_chat_empty (w : world) : handle_chat env "" w = (Ok tt, w).
Proof. reflexivity. Qed.

(** [handle_chat] only ever appends to the conversation: nothing, the
    user turn, or the user turn and the assistant turn. *)
Lemma handle_chat_appends (user_input : string) (w : world) :
  exists new,
    messages (handle_chat env user_input w).2 = messages w ++ new
    /\ Forall (fun m => role m = "user" \/ role m = "assistant") new.
Proof.
  destruct (decide (user_input = "")) as [->|Hne].
  - exists []. by rewrite handle_chat_empty, app_nil_r.
  - rewrite handle_chat_eq by done.
    destruct (stream_response_frame env "my-chatbot"
                (messages w ++ [user_message user_input])
                (turn_opened user_input w)) as [es Hw'].
    destruct (stream_response env _ _ _) as [[text|e] w'];
      simpl in Hw'; subst w'; simpl.
    + exists [user_message user_input; assistant_message text].
      rewrite <- app_assoc. split; [done|].
      constructor; [by left|]. constructor; [by right|]. constructor.
    + exists [user_message user_input]. split; [done|].
      constructor; [by left|]. constructor.
Qed.

(** The body of [transcribe_audio], spelled out. *)
Lemma transcribe_audio_eq (audio_data : string) (w : world) :
  transcribe_audio env audio_data w =
  match requests_post env DEEPGRAM_URL audio_data (audio_headers env) with
  | Raise e => (Raise e, logged w [audio_post env audio_data])
  | Ok r =>
      if status_code r =? 200
      then (transcript_of r, logged w [audio_post env audio_data])
      else (Ok "", logged w [audio_post env audio_data;
                             StError "Error transcribing audio"])
  end.
Proof.
  unfold transcribe_audio, post, bind, lift, emit, ret. simpl.
  fold (audio_headers env). fold (audio_post env audio_data).
  fold (logged w [audio_post env audio_data]).
  destruct (requests_post env _ _ _) as [r|e]; [|done].
  destruct (status_code r =? 200).
  - by destruct (transcript_of r).
  - unfold logged. simpl. by rewrite <- app_assoc.
Qed.

(** [transcribe_audio] sends its request and leaves the conversation
    alone. *)
Lemma transcribe_audio_frame (audio_data : string) (w : world) :
  exists es, (transcribe_audio env audio_data w).2
             = logged w (audio_post env audio_data :: es).
Proof.
  rewrite transcribe_audio_eq.
  destruct (requests_post env _ _ _) as [r|e]; [|by exists []].
  destruct (status_code r =? 200); by eexists.
Qed.

End Orchestrator.

(** C1. On a non-empty input [handle_chat] first appends the user turn,
    then calls the streaming client with the model name "my-chatbot" and
    the conversation that ends with that turn (the request for them is the
    first thing sent), and, when the client returns a text, appends one
    assistant turn holding it: the conversation grows by exactly these
    two messages. *)
Theorem handle_chat_appends_user_then_assistant
    (env : Env) (user_input : string) (w w' : world) (text : string) :
  user_input <> "" ->
  stream_response env "my-chatbot"
    (messages w ++ [user_message user_input]) (turn_opened user_input w)
  = (Ok text, w') ->
  handle_chat env user_input w =
    (Ok tt, {| messages := messages w ++ [user_message user_input;
                                          assistant_message text];
               trace := trace w' |})
  /\ messages (turn_opened user_input w)
     = messages w ++ [user_message user_input]
  /\ messages w' = messages w ++ [user_message user_input]
  /\ exists es,
       trace w' =
       trace w ++ [StChatMessage "user"; StMarkdown user_input;
                   StChatMessage "assistant";
                   chat_post env "my-chatbot"
                     (messages w ++ [user_message user_input])] ++ es.
Proof.
  intros Hne Hcall.
  destruct (stream_response_frame env "my-chatbot"
              (messages w ++ [user_message user_input])
              (turn_opened user_input w)) as [es Hw'].
  rewrite Hcall in Hw'. simpl in Hw'. subst w'.
  split; [|split; [done|split; [done|]]].
  - rewrite handle_chat_eq, Hcall by done. simpl. by rewrite <- app_assoc.
  - exists es. simpl. by rewrite <- app_assoc.
Qed.

Lemma handle_chat_appends_user_then_assistant_witness :
  handle_chat Scenario.env "Hi" Scenario.fresh =
    (Ok tt,
     {| messages := [user_message "Hi"; assistant_message "Hello!"];
        trace := [StChatMessage "user"; StMarkdown "Hi";
                  StChatMessage "assistant";
                  chat_post Scenario.env "my-chatbot" [user_message "Hi"];
                  StEmpty; AreaMarkdown "Hel"; AreaMarkdown "Hello!"] |}).
Proof.
  apply (handle_chat_appends_user_then_assistant Scenario.env "Hi"
           Scenario.fresh
           {| messages := [user_message "Hi"];
              trace := [StChatMessage "user"; StMarkdown "Hi";
                        StChatMessage "assistant";
                        chat_post Scenario.env "my-chatbot" [user_message "Hi"];
                        StEmpty; AreaMarkdown "Hel"; AreaMarkdown "Hello!"] |}
           "Hello!").
  - discriminate.
  - vm_compute. reflexivity.
Defined.

(** C7. On the empty input [handle_chat] returns at once: the
    conversation and the trace are unchanged, whereas every call of the
    streaming client adds its request to the trace; so the streaming
    client is not called. *)
Theorem handle_chat_empty_input_is_noop (env : Env) (w : world) :
  handle_chat env "" w = (Ok tt, w)
  /\ messages (handle_chat env "" w).2 = messages w
  /\ trace (handle_chat env "" w).2 = trace w
  /\ (forall model_name msgs w0,
        exists es,
          trace (stream_response env model_name msgs w0).2
          = trace w0 ++ chat_post env model_name msgs :: es).
Proof.
  split; [|split; [|split]]; try reflexivity.
  intros model_name msgs w0.
  destruct (stream_response_frame env model_name msgs w0) as [es ->].
  by exists es.
Qed.

(** C4. Errors on the chat path propagate and nothing is rolled back.
    When the response has a 4xx or 5xx status, [stream_response] raises
    [HTTPError] right after its request, before the placeholder exists and
    before any text is accumulated; when a chunk does not decode to an
    object with a [message.content] field (the lines in front of it being
    clean), [stream_response] raises at that chunk. In both cases
    [handle_chat] raises the same exception, appends no assistant turn,
    and the user turn it had appended stays in the conversation. *)
Theorem chat_errors_propagate_without_rollback
    (env : Env) (user_input : string) (w : world) (r : Response) :
  user_input <> "" ->
  let msgs := messages w ++ [user_message user_input] in
  let w1 := turn_opened user_input w in
  requests_post env OLLAMA_URL
    (json_dumps env (chat_request "my-chatbot" msgs)) chat_headers = Ok r ->
  (400 <= status_code r < 600 ->
   let w' := logged w1 [chat_post env "my-chatbot" msgs] in
   stream_response env "my-chatbot" msgs w1 = (Raise HTTPError, w')
   /\ handle_chat env user_input w = (Raise HTTPError, w')
   /\ messages w' = messages w ++ [user_message user_input])
  /\ (~ (400 <= status_code r < 600) ->
      forall (pre post : list string) (line : string),
        iter_lines r = pre ++ line :: post ->
        Forall (clean env) pre ->
        line <> "" ->
        ~ has_content env line ->
        let w' := logged w1 (chat_post env "my-chatbot" msgs :: StEmpty ::
                     (AreaMarkdown <$> partials "" (text_chunks env pre))) in
        exists e,
          stream_response env "my-chatbot" msgs w1 = (Raise e, w')
          /\ handle_chat env user_input w = (Raise e, w')
          /\ messages w' = messages w ++ [user_message user_input]).
Proof.
  intros Hne msgs w1 Hr. split.
  - intros Hs w'.
    assert (Hcall : stream_response env "my-chatbot" msgs w1
                    = (Raise HTTPError, w'))
      by by apply stream_response_http_error with r.
    split; [done|]. split; [|done].
    rewrite handle_chat_eq by done. fold msgs w1. by rewrite Hcall.
  - intros Hs pre post line Hlines Hpre Hline Hbad w'.
    apply chunk_content_raises in Hbad as [e He]. exists e.
    assert (Hcall : stream_response env "my-chatbot" msgs w1 = (Raise e, w')).
    { rewrite (stream_response_streaming env "my-chatbot" msgs w1 r Hr Hs).
      rewrite Hlines, for_chunks_clean_prefix by done.
      rewrite (for_chunks_malformed env line e) by done.
      by rewrite logged_logged. }
    split; [done|]. split; [|done].
    rewrite handle_chat_eq by done. fold msgs w1. by rewrite Hcall.
Qed.

Lemma chat_errors_propagate_without_rollback_witness :
  handle_chat Scenario.env_down "Hi" Scenario.fresh
  = (Raise HTTPError,
     {| messages := [user_message "Hi"];
        trace := [StChatMessage "user"; StMarkdown "Hi";
                  StChatMessage "assistant";
                  chat_post Scenario.env_down "my-chatbot"
                    [user_message "Hi"]] |})
  /\ exists e,
       handle_chat Scenario.env_broken "Hi" Scenario.fresh
       = (Raise e,
          {| messages := [user_message "Hi"];
             trace := [StChatMessage "user"; StMarkdown "Hi";
                       StChatMessage "assistant";
                       chat_post Scenario.env_broken "my-chatbot"
                         [user_message "Hi"];
                       StEmpty; AreaMarkdown "Hel"] |}).
Proof.
  split.
  - apply (chat_errors_propagate_without_rollback Scenario.env_down "Hi"
             Scenario.fresh (Scenario.failed 503) ltac:(discriminate) eq_refl).
    simpl. lia.
  - destruct (chat_errors_propagate_without_rollback Scenario.env_broken
                "Hi" Scenario.fresh Scenario.chat_broken
                ltac:(discriminate) eq_refl)
      as [_ Hchunk].
    destruct (Hchunk ltac:(simpl; lia) [Scenario.chunk_line "Hel"]
                [Scenario.chunk_line "lo!"] "<html>" eq_refl)
      as (e & _ & Hchat & _).
    + constructor; [|constructor].
      right. eexists. split; vm_compute; reflexivity.
    + discriminate.
    + intros (o & m & v & Hl & _). vm_compute in Hl. discriminate.
    + exists e. exact Hchat.
Defined.

(** C8. The conversation is append-only and its messages never change:
    across any number of calls of [handle_chat] (and of
    [transcribe_audio]), whatever the outside answers, the conversation
    afterwards is the conversation before followed by new
    [{role, content}] entries with role "user" or "assistant", and every
    message keeps its position, its role and its content. *)
Theorem conversation_is_append_only (w w' : world) :
  steps w w' ->
  (exists new,
      messages w' = messages w ++ new
      /\ Forall (fun m => role m = "user" \/ role m = "assistant") new)
  /\ (forall (i : nat) (m : Message),
        messages w !! i = Some m ->
        messages w' !! i = Some m
        /\ (forall m', messages w' !! i = Some m' ->
                       role m' = role m /\ content m' = content m)).
Proof.
  intros Hsteps.
  assert (Happ : exists new,
             messages w' = messages w ++ new
             /\ Forall (fun m => role m = "user" \/ role m = "assistant") new).
  { induction Hsteps as [w|w w1 w2 Hstep _ (new2 & Heq2 & Hnew2)].
    - exists []. by rewrite app_nil_r.
    - assert (exists new1,
                 messages w1 = messages w ++ new1
                 /\ Forall (fun m => role m = "user" \/ role m = "assistant")
                      new1) as (new1 & Heq1 & Hnew1).
      { destruct Hstep as [env user_input w|env audio_data w].
        - apply handle_chat_appends.
        - destruct (transcribe_audio_frame env audio_data w) as [es ->].
          exists []. by rewrite app_nil_r. }
      exists (new1 ++ new2). rewrite Heq2, Heq1, <- app_assoc.
      split; [done | by apply Forall_app]. }
  split; [done|].
  destruct Happ as (new & Heq & _).
  intros i m Hi.
  assert (Hi' : messages w' !! i = Some m)
    by (rewrite Heq; by apply lookup_app_l_Some).
  split; [done|]. intros m' Hm'. rewrite Hi' in Hm'. by injection Hm' as <-.
Qed.

Lemma conversation_is_append_only_witness :
  let w1 := (handle_chat Scenario.env "Hi" Scenario.fresh).2 in
  let w2 := (handle_chat Scenario.env_down "Again" w1).2 in
  messages w2 !! 1%nat = Some (assistant_message "Hello!").
Proof.
  intros w1 w2.
  assert (Hsteps : steps w1 w2) by (apply rtc_once; apply step_handle_chat).
  destruct (conversation_is_append_only w1 w2 Hsteps) as [_ Hkeep].
  apply (Hkeep 1%nat (assistant_message "Hello!")).
  vm_compute. reflexivity.
Defined.

(** ** The transcription client *)

Lemma transcript_of_complete (r : Response) (body v : json_value) :
  json r = Some body ->
  transcript_at_path body = Some v ->
  transcript_of r = Py.strip v.
Proof.
  intros Hjson Hpath. unfold transcript_of. rewrite Hjson.
  unfold transcript_at_path in Hpath.
  repeat (case_match; try done); subst; simpl.
  repeat match goal with H : _ !! _ = _ |- _ => rewrite H; clear H; simpl end.
  reflexivity.
Qed.

Lemma transcript_of_key_missing (r : Response) (body : json_value) :
  json r = Some body ->
  key_missing body ->
  transcript_of r = Ok "".
Proof.
  intros Hjson Hmiss. unfold transcript_of. rewrite Hjson.
  destruct Hmiss; simpl;
    repeat match goal with H : _ !! _ = _ |- _ => rewrite H; clear H; simpl end;
    reflexivity.
Qed.

Lemma transcript_of_empty_list (r : Response) (body : json_value) :
  json r = Some body ->
  empty_list_on_path body ->
  transcript_of r = Raise IndexError.
Proof.
  intros Hjson Hempty. unfold transcript_of. rewrite Hjson.
  destruct Hempty; simpl;
    repeat match goal with H : _ !! _ = _ |- _ => rewrite H; clear H; simpl end;
    reflexivity.
Qed.

Lemma transcribe_audio_200 (env : Env) (audio_data : string) (w : world)
    (r : Response) :
  requests_post env DEEPGRAM_URL audio_data (audio_headers env) = Ok r ->
  status_code r = 200 ->
  transcribe_audio env audio_data w
  = (transcript_of r, logged w [audio_post env audio_data]).
Proof.
  intros Hr Hs. by rewrite transcribe_audio_eq, Hr, Hs.
Qed.

(** C5. On a 200 response whose JSON body holds the whole path
    [results.channels[0].alternatives[0].transcript], ending in a text,
    [transcribe_audio] returns that text with the whitespace at both ends
    removed: the transcript is a run of whitespace, the returned text, a
    run of whitespace, and the returned text neither starts nor ends with
    whitespace ("hello world" for the transcript "hello world"). On a 200
    response whose body is an object in which a key of that path is
    missing, it returns the empty string. In both cases nothing but the
    request is added to the trace. *)
Theorem transcribe_audio_reads_transcript
    (env : Env) (audio_data : string) (w : world) (r : Response)
    (body : json_value) :
  requests_post env DEEPGRAM_URL audio_data (audio_headers env) = Ok r ->
  status_code r = 200 ->
  json r = Some body ->
  (forall t,
      transcript_at_path body = Some (JStr t) ->
      transcribe_audio env audio_data w
      = (Ok (PyStr.strip t), logged w [audio_post env audio_data])
      /\ exists l t',
           t = l +:+ PyStr.strip t +:+ t'
           /\ PyStr.all_space l = true /\ PyStr.all_space t' = true
           /\ PyStr.starts_clean (PyStr.strip t) = true
           /\ PyStr.ends_clean (PyStr.strip t) = true)
  /\ (body = Scenario.transcript_body "hello world" ->
      transcribe_audio env audio_data w
      = (Ok "hello world", logged w [audio_post env audio_data]))
  /\ (key_missing body ->
      transcribe_audio env audio_data w
      = (Ok "", logged w [audio_post env audio_data])).
Proof.
  intros Hr Hs Hjson.
  rewrite (transcribe_audio_200 env audio_data w r Hr Hs).
  split; [|split].
  - intros t Hpath. split.
    + by rewrite (transcript_of_complete r body (JStr t)).
    + apply PyStrFacts.strip_spec.
  - intros ->.
    by rewrite (transcript_of_complete r _ (JStr "hello world") Hjson).
  - intros Hmiss. by rewrite (transcript_of_key_missing r body).
Qed.

Lemma transcribe_audio_reads_transcript_witness :
  transcribe_audio Scenario.env "RIFF" Scenario.fresh
  = (Ok "hello world",
     logged Scenario.fresh [audio_post Scenario.env "RIFF"])
  /\ transcribe_audio
       (Scenario.env_body (Scenario.transcript_body "  hello world "))
       "RIFF" Scenario.fresh
     = (Ok "hello world",
        logged Scenario.fresh
          [audio_post
             (Scenario.env_body (Scenario.transcript_body "  hello world "))
             "RIFF"])
  /\ transcribe_audio (Scenario.env_body Scenario.alternatives_missing)
       "RIFF" Scenario.fresh
     = (Ok "",
        logged Scenario.fresh
          [audio_post (Scenario.env_body Scenario.alternatives_missing)
             "RIFF"]).
Proof.
  split; [|split].
  - apply (transcribe_audio_reads_transcript Scenario.env "RIFF"
             Scenario.fresh
             (Scenario.audio_ok (Scenario.transcript_body "hello world"))
             (Scenario.transcript_body "hello world")
             eq_refl eq_refl eq_refl).
    reflexivity.
  - exact (proj1
             (proj1
                (transcribe_audio_reads_transcript
                   (Scenario.env_body
                      (Scenario.transcript_body "  hello world "))
                   "RIFF" Scenario.fresh
                   (Scenario.audio_ok
                      (Scenario.transcript_body "  hello world "))
                   (Scenario.transcript_body "  hello world ")
                   eq_refl eq_refl eq_refl)
                "  hello world " eq_refl)).
  - apply (transcribe_audio_reads_transcript
             (Scenario.env_body Scenario.alternatives_missing)
             "RIFF" Scenario.fresh
             (Scenario.audio_ok Scenario.alternatives_missing)
             Scenario.alternatives_missing
             eq_refl eq_refl eq_refl).
    apply missing_alternatives
      with (r := {[ "channels" := JArr [JObj ∅] ]}) (c := ∅) (cs := []);
      vm_compute; reflexivity.
Defined.

(** C10. On a 200 response whose body binds ["channels"] (under
    ["results"]) or ["alternatives"] (under the first channel) to the
    empty list, [transcribe_audio] raises [IndexError] instead of
    returning: the defaults of [get] replace missing keys only. *)
Theorem transcribe_audio_empty_list_raises
    (env : Env) (audio_data : string) (w : world) (r : Response)
    (body : json_value) :
  requests_post env DEEPGRAM_URL audio_data (audio_headers env) = Ok r ->
  status_code r = 200 ->
  json r = Some body ->
  empty_list_on_path body ->
  transcribe_audio env audio_data w
  = (Raise IndexError, logged w [audio_post env audio_data]).
Proof.
  intros Hr Hs Hjson Hempty.
  rewrite (transcribe_audio_200 env audio_data w r Hr Hs).
  by rewrite (transcript_of_empty_list r body).
Qed.

Lemma transcribe_audio_empty_list_raises_witness :
  transcribe_audio (Scenario.env_body Scenario.no_channels) "RIFF"
    Scenario.fresh
  = (Raise IndexError,
     logged Scenario.fresh
       [audio_post (Scenario.env_body Scenario.no_channels) "RIFF"])
  /\ transcribe_audio (Scenario.env_body Scenario.no_alternatives) "RIFF"
       Scenario.fresh
     = (Raise IndexError,
        logged Scenario.fresh
          [audio_post (Scenario.env_body Scenario.no_alternatives) "RIFF"]).
Proof.
  split.
  - apply (transcribe_audio_empty_list_raises
             (Scenario.env_body Scenario.no_channels) "RIFF" Scenario.fresh
             (Scenario.audio_ok Scenario.no_channels) Scenario.no_channels
             eq_refl eq_refl eq_refl).
    apply empty_channels with (r := {[ "channels" := JArr [] ]});
      vm_compute; reflexivity.
  - apply (transcribe_audio_empty_list_raises
             (Scenario.env_body Scenario.no_alternatives) "RIFF"
             Scenario.fresh
             (Scenario.audio_ok Scenario.no_alternatives)
             Scenario.no_alternatives
             eq_refl eq_refl eq_refl).
    apply empty_alternatives
      with (r := {[ "channels" := JArr [JObj {[ "alternatives" := JArr [] ]}] ]})
           (c := {[ "alternatives" := JArr [] ]}) (cs := []);
      vm_compute; reflexivity.
Defined.

(** C6, as the code has it. On every response with a status other than
    200, [transcribe_audio] returns the empty string, shows the error
    notification exactly once and raises nothing. On a 200 response it
    returns a text, and shows no notification, when the body is a JSON
    object in which the path
    [results.channels[0].alternatives[0].transcript] is complete and ends
    in a text or stops at a missing key. *)
Theorem transcribe_audio_degrades
    (env : Env) (audio_data : string) (w : world) (r : Response) :
  requests_post env DEEPGRAM_URL audio_data (audio_headers env) = Ok r ->
  (status_code r <> 200 ->
   let es := [audio_post env audio_data; StError "Error transcribing audio"] in
   transcribe_audio env audio_data w = (Ok "", logged w es)
   /\ notifications es = ["Error transcribing audio"])
  /\ (status_code r = 200 ->
      forall body,
        json r = Some body ->
        path_shaped body ->
        let es := [audio_post env audio_data] in
        exists t,
          transcribe_audio env audio_data w = (Ok t, logged w es)
          /\ notifications es = []).
Proof.
  intros Hr. split.
  - intros Hs es. split; [|done].
    rewrite transcribe_audio_eq, Hr.
    by apply Z.eqb_neq in Hs as ->.
  - intros Hs body Hjson Hshape es.
    rewrite (transcribe_audio_200 env audio_data w r Hr Hs).
    destruct Hshape as [Hmiss|[t Hpath]].
    + exists "". by rewrite (transcript_of_key_missing r body).
    + exists (PyStr.strip t).
      by rewrite (transcript_of_complete r body (JStr t)).
Qed.

Lemma transcribe_audio_degrades_witness :
  transcribe_audio Scenario.env_down "RIFF" Scenario.fresh
  = (Ok "",
     logged Scenario.fresh
       [audio_post Scenario.env_down "RIFF";
        StError "Error transcribing audio"])
  /\ exists t,
       transcribe_audio Scenario.env "RIFF" Scenario.fresh
       = (Ok t, logged Scenario.fresh [audio_post Scenario.env "RIFF"]).
Proof.
  split.
  - apply (transcribe_audio_degrades Scenario.env_down "RIFF" Scenario.fresh
             (Scenario.failed 401) eq_refl).
    discriminate.
  - destruct (transcribe_audio_degrades Scenario.env "RIFF" Scenario.fresh
                (Scenario.audio_ok (Scenario.transcript_body "hello world"))
                eq_refl) as [_ H200].
    destruct (H200 eq_refl (Scenario.transcript_body "hello world") eq_refl)
      as (t & Ht & _).
    + right. exists "hello world". reflexivity.
    + exists t. exact Ht.
Defined.

(** C6 as stated fails: [transcribe_audio] does not return a text on every
    upstream response. A 200 response whose body is not JSON makes
    [response.json()] raise, and the exception leaves [transcribe_audio]. *)
Lemma transcribe_audio_can_raise :
  transcribe_audio Scenario.env_html "RIFF" Scenario.fresh
  = (Raise ValueError,
     logged Scenario.fresh [audio_post Scenario.env_html "RIFF"])
  /\ ~ exists t : string,
        (transcribe_audio Scenario.env_html "RIFF" Scenario.fresh).1 = Ok t.
Proof.
  split; [reflexivity|]. intros [t Ht]. vm_compute in Ht. discriminate.
Qed.

(** * Further properties *)

(** ** Events *)

Lemma requests_app (es1 es2 : list event) :
  requests (es1 ++ es2) = requests es1 ++ requests es2.
Proof. apply omap_app. Qed.

Lemma requests_markdowns (texts : list string) :
  requests (AreaMarkdown <$> texts) = [].
Proof.
  induction texts as [|t texts IH]; [done|].
  rewrite fmap_cons. unfold requests in *. by rewrite omap_cons.
Qed.

Lemma last_cons_default (acc t : string) (texts : list string) :
  default acc (last (t :: texts)) = default t (last texts).
Proof.
  destruct texts as [|t' texts]; [done|].
  change (last (t :: t' :: texts)) with (last (t' :: texts)).
  by destruct (proj2 (last_is_Some (t' :: texts)) ltac:(done)) as [x ->].
Qed.

Lemma growing_spec (prev : string) (texts : list string) :
  growing prev texts ->
  (forall t, texts !! 0%nat = Some t -> exists c, t = prev +:+ c)
  /\ (forall (i : nat) (p q : string),
        texts !! i = Some p -> texts !! S i = Some q ->
        exists c, q = p +:+ c).
Proof.
  revert prev. induction texts as [|t texts IH]; intros prev; [done|].
  intros [Hhead Htail]. destruct (IH t Htail) as [IH0 IHS]. split.
  - intros t' [= <-]. exact Hhead.
  - intros [|i] p q Hp Hq; simpl in *.
    + injection Hp as <-. by apply IH0.
    + by apply (IHS i).
Qed.

(** ** The streaming client on arbitrary streams *)

(** Whatever the lines are, the loop writes texts that only grow, and
    when it returns, it returns the last one written (its starting text
    when none was written). *)
Lemma for_chunks_trace (env : Env) (lines : list string) (acc : string)
    (w : world) :
  exists texts,
    (for_chunks env lines acc w).2 = logged w (AreaMarkdown <$> texts)
    /\ growing acc texts
    /\ (forall t, (for_chunks env lines acc w).1 = Ok t ->
                  t = default acc (last texts)).
Proof.
  revert acc w. induction lines as [|chunk rest IH]; intros acc w.
  - exists []. simpl. rewrite logged_nil. split; [done|]. split; [done|].
    by intros t [= <-].
  - rewrite for_chunks_cons.
    assert (Hstay : forall (res : result string),
               (forall t, res = Ok t -> t = acc) ->
               exists texts,
                 (res, w).2 = logged w (AreaMarkdown <$> texts)
                 /\ growing acc texts
                 /\ (forall t, (res, w).1 = Ok t ->
                               t = default acc (last texts))).
    { intros res Hres. exists []. simpl. rewrite logged_nil. by repeat split. }
    case_bool_decide; [apply IH|].
    destruct (chunk_content env chunk) as [content|e]; [|by apply Hstay].
    destruct (Py.contains IM_END content) as [[|]|e];
      [apply Hstay; by intros t [= <-] | | by apply Hstay].
    destruct (Py.add acc content) as [text|e] eqn:Hadd; [|by apply Hstay].
    destruct (IH text (logged w [AreaMarkdown text]))
      as (texts & Hw & Hgrow & Hlast).
    exists (text :: texts). rewrite Hw, logged_logged. split; [done|].
    split.
    + split; [|done]. destruct content; try done.
      injection Hadd as <-. by eexists.
    + intros t Ht. rewrite last_cons_default. by apply Hlast.
Qed.

(** What the loop can raise: the decoding errors of a chunk. *)
Lemma for_chunks_raises (env : Env) (lines : list string) (acc : string)
    (w : world) (e : exn) :
  (for_chunks env lines acc w).1 = Raise e ->
  e = ValueError \/ e = KeyError \/ e = TypeError.
Proof.
  revert acc w. induction lines as [|chunk rest IH]; intros acc w; [done|].
  rewrite for_chunks_cons. case_bool_decide; [apply IH|].
  destruct (chunk_content env chunk) as [content|e'] eqn:Hc.
  - destruct (Py.contains IM_END content) as [[|]|e'] eqn:Hin; [done| |].
    + destruct (Py.add acc content) as [text|e'] eqn:Hadd; [apply IH|].
      destruct content; try done; injection Hadd as <-; intros [= <-]; auto.
    + destruct content; try done; injection Hin as <-; intros [= <-]; auto.
  - intros [= <-]. unfold chunk_content in Hc.
    destruct (json_loads env chunk) as [v|]; simpl in Hc;
      [|injection Hc as <-; auto].
    destruct v as [| | | | | |o]; simpl in Hc;
      try (injection Hc as <-; auto).
    destruct (o !! "message") as [msg|]; simpl in Hc;
      [|injection Hc as <-; auto].
    destruct msg as [| | | | | |m]; simpl in Hc;
      try (injection Hc as <-; auto).
    destruct (m !! "content"); simpl in Hc; [done|injection Hc as <-; auto].
Qed.

(** The loop reads the outside world through [json.loads] only. *)
Lemma for_chunks_same_decoder (env env' : Env) (lines : list string)
    (acc : string) (w : world) :
  json_loads env' = json_loads env ->
  for_chunks env' lines acc w = for_chunks env lines acc w.
Proof.
  intros Hloads. revert acc w.
  induction lines as [|chunk rest IH]; intros acc w; [done|].
  rewrite !for_chunks_cons.
  replace (chunk_content env' chunk) with (chunk_content env chunk)
    by (unfold chunk_content; by rewrite Hloads).
  case_bool_decide; [apply IH|].
  destruct (chunk_content env chunk) as [content|e]; [|done].
  destruct (Py.contains IM_END content) as [[|]|e]; [done| |done].
  destruct (Py.add acc content) as [text|e]; [apply IH | done].
Qed.

Lemma for_chunks_without_empty_lines (env : Env) (lines : list string)
    (acc : string) (w : world) :
  for_chunks env (filter (fun l => l <> "") lines) acc w
  = for_chunks env lines acc w.
Proof.
  revert acc w. induction lines as [|chunk rest IH]; intros acc w; [done|].
  destruct (decide (chunk = "")) as [->|Hne].
  - rewrite filter_cons_False by (intros H; by apply H).
    by rewrite for_chunks_empty_line.
  - rewrite filter_cons_True by done. rewrite !for_chunks_cons.
    case_bool_decide; [done|].
    destruct (chunk_content env chunk) as [content|e]; [|done].
    destruct (Py.contains IM_END content) as [[|]|e]; [done| |done].
    destruct (Py.add acc content) as [text|e]; [apply IH | done].
Qed.

(** The call on a stream of clean lines. *)
Lemma stream_response_clean
    (env : Env) (model_name : string) (msgs : list Message) (w : world)
    (r : Response) :
  requests_post env OLLAMA_URL
    (json_dumps env (chat_request model_name msgs)) chat_headers = Ok r ->
  ~ (400 <= status_code r < 600) ->
  Forall (clean env) (iter_lines r) ->
  stream_response env model_name msgs w =
    (Ok (PyStr.strip (joined (text_chunks env (iter_lines r)))),
     logged w (chat_post env model_name msgs :: StEmpty ::
               (AreaMarkdown <$>
                  partials "" (text_chunks env (iter_lines r))))).
Proof.
  intros Hr Hs Hclean.
  rewrite (stream_response_streaming env model_name msgs w r Hr Hs).
  rewrite (for_chunks_clean env (iter_lines r)) by done.
  by rewrite logged_logged.
Qed.

(** What a returned text is. *)
Lemma stream_response_returns
    (env : Env) (model_name : string) (msgs : list Message) (w w' : world)
    (text : string) :
  stream_response env model_name msgs w = (Ok text, w') ->
  exists es,
    w' = logged w es
    /\ text = PyStr.strip (default "" (last (published es)))
    /\ trimmed text = true.
Proof.
  rewrite stream_response_eq.
  destruct (requests_post env _ _ _) as [r|e]; [|done].
  destruct ((400 <=? status_code r) && (status_code r <? 600)); [done|].
  destruct (for_chunks_trace env (iter_lines r) ""
              (logged w [chat_post env model_name msgs; StEmpty]))
    as (texts & Hw & _ & Hlast).
  destruct (for_chunks env _ _ _) as [[acc|e] w1]; [|done].
  simpl in Hw, Hlast. intros [= <- <-].
  exists (chat_post env model_name msgs :: StEmpty :: (AreaMarkdown <$> texts)).
  assert (Hpub : published (chat_post env model_name msgs :: StEmpty ::
                            (AreaMarkdown <$> texts)) = texts)
    by apply published_markdowns.
  rewrite Hpub, Hw, logged_logged, <- (Hlast acc eq_refl).
  split; [done|]. split; [done|].
  destruct (PyStrFacts.strip_spec acc) as (l & t & _ & _ & _ & Hs & He).
  unfold trimmed. by rewrite Hs, He.
Qed.

(** The requests of one call. *)
Lemma stream_response_requests
    (env : Env) (model_name : string) (msgs : list Message) (w : world) :
  exists es,
    (stream_response env model_name msgs w).2 = logged w es
    /\ requests es = [chat_post env model_name msgs]
    /\ messages (stream_response env model_name msgs w).2 = messages w.
Proof.
  assert (Hnone : exists es,
             logged w [chat_post env model_name msgs] = logged w es
             /\ requests es = [chat_post env model_name msgs]
             /\ messages (logged w [chat_post env model_name msgs])
                = messages w)
    by (by exists [chat_post env model_name msgs]).
  rewrite stream_response_eq.
  destruct (requests_post env _ _ _) as [r|e]; [|done].
  destruct ((400 <=? status_code r) && (status_code r <? 600)); [done|].
  destruct (for_chunks_frame env (iter_lines r) ""
              (logged w [chat_post env model_name msgs; StEmpty]))
    as [texts Hw].
  exists (chat_post env model_name msgs :: StEmpty :: (AreaMarkdown <$> texts)).
  assert (Hreq : requests (chat_post env model_name msgs :: StEmpty ::
                           (AreaMarkdown <$> texts))
                 = [chat_post env model_name msgs]).
  { change (chat_post env model_name msgs :: StEmpty :: (AreaMarkdown <$> texts))
      with ([chat_post env model_name msgs; StEmpty] ++ (AreaMarkdown <$> texts)).
    by rewrite requests_app, requests_markdowns. }
  destruct (for_chunks env _ _ _) as [[text|e] w']; simpl in *; subst w';
    by rewrite logged_logged.
Qed.

(** X1. A stream that ends without the end-of-turn marker is read to its
    end: when every line is empty or a text chunk without the marker,
    [stream_response] returns the concatenation of all contents, trimmed,
    and has published every running concatenation. *)
Theorem stream_without_marker_is_read_to_the_end
    (env : Env) (model_name : string) (msgs : list Message) (w : world)
    (r : Response) :
  requests_post env OLLAMA_URL
    (json_dumps env (chat_request model_name msgs)) chat_headers = Ok r ->
  ~ (400 <= status_code r < 600) ->
  Forall (clean env) (iter_lines r) ->
  stream_response env model_name msgs w =
    (Ok (PyStr.strip (joined (text_chunks env (iter_lines r)))),
     logged w (chat_post env model_name msgs :: StEmpty ::
               (AreaMarkdown <$>
                  partials "" (text_chunks env (iter_lines r))))).
Proof.
  intros Hr Hs Hclean.
  rewrite (stream_response_streaming env model_name msgs w r Hr Hs).
  rewrite (for_chunks_clean env (iter_lines r)) by done.
  by rewrite logged_logged.
Qed.

Lemma stream_without_marker_is_read_to_the_end_witness :
  stream_response (Cases.env_lines Cases.two_chunks JNull) "my-chatbot" []
    Scenario.fresh
  = (Ok "Hello!",
     logged Scenario.fresh
       [chat_post (Cases.env_lines Cases.two_chunks JNull) "my-chatbot" [];
        StEmpty; AreaMarkdown "Hel"; AreaMarkdown "Hello! "]).
Proof.
  rewrite (stream_without_marker_is_read_to_the_end
             (Cases.env_lines Cases.two_chunks JNull) "my-chatbot" []
             Scenario.fresh (Cases.stream 200 Cases.two_chunks)
             eq_refl ltac:(simpl; lia)).
  - vm_compute. reflexivity.
  - constructor; [|constructor; [|constructor; [|constructor]]].
    + right. eexists. split; vm_compute; reflexivity.
    + by left.
    + right. eexists. split; vm_compute; reflexivity.
Defined.

(** X2. On every stream, also one that fails later, the texts written to
    the placeholder only grow: the first extends the empty text and each
    later one extends the one before it. *)
Theorem published_texts_grow_on_every_stream
    (env : Env) (model_name : string) (msgs : list Message) (w : world) :
  exists es,
    (stream_response env model_name msgs w).2 = logged w es
    /\ growing "" (published es)
    /\ (forall (i : nat) (p q : string),
          published es !! i = Some p ->
          published es !! S i = Some q ->
          exists c, q = p +:+ c).
Proof.
  assert (Hnone : exists es,
             logged w [chat_post env model_name msgs] = logged w es
             /\ growing "" (published es)
             /\ (forall (i : nat) (p q : string),
                   published es !! i = Some p ->
                   published es !! S i = Some q ->
                   exists c, q = p +:+ c))
    by (exists [chat_post env model_name msgs]; by repeat split).
  rewrite stream_response_eq.
  destruct (requests_post env _ _ _) as [r|e]; [|done].
  destruct ((400 <=? status_code r) && (status_code r <? 600)); [done|].
  destruct (for_chunks_trace env (iter_lines r) ""
              (logged w [chat_post env model_name msgs; StEmpty]))
    as (texts & Hw & Hgrow & _).
  exists (chat_post env model_name msgs :: StEmpty :: (AreaMarkdown <$> texts)).
  assert (Hpub : published (chat_post env model_name msgs :: StEmpty ::
                            (AreaMarkdown <$> texts)) = texts)
    by apply published_markdowns.
  rewrite Hpub.
  split; [|split; [done | exact (proj2 (growing_spec "" texts Hgrow))]].
  destruct (for_chunks env _ _ _) as [[text|e] w']; simpl in *; subst w';
    by rewrite logged_logged.
Qed.

(** X3. Whenever [stream_response] returns, the text it returns is the
    last text it wrote to the placeholder (the empty text when it wrote
    none) with the whitespace at both ends removed; so the reply has no
    whitespace at either end, while the page may show some. *)
Theorem returned_text_is_last_partial_trimmed
    (env : Env) (model_name : string) (msgs : list Message) (w w' : world)
    (text : string) :
  stream_response env model_name msgs w = (Ok text, w') ->
  exists es,
    w' = logged w es
    /\ text = PyStr.strip (default "" (last (published es)))
    /\ trimmed text = true.
Proof.
  rewrite stream_response_eq.
  destruct (requests_post env _ _ _) as [r|e]; [|done].
  destruct ((400 <=? status_code r) && (status_code r <? 600)); [done|].
  destruct (for_chunks_trace env (iter_lines r) ""
              (logged w [chat_post env model_name msgs; StEmpty]))
    as (texts & Hw & _ & Hlast).
  destruct (for_chunks env _ _ _) as [[acc|e] w1]; [|done].
  simpl in Hw, Hlast. intros [= <- <-].
  exists (chat_post env model_name msgs :: StEmpty :: (AreaMarkdown <$> texts)).
  assert (Hpub : published (chat_post env model_name msgs :: StEmpty ::
                            (AreaMarkdown <$> texts)) = texts)
    by apply published_markdowns.
  rewrite Hpub, Hw, logged_logged, <- (Hlast acc eq_refl).
  split; [done|]. split; [done|].
  destruct (PyStrFacts.strip_spec acc) as (l & t & _ & _ & _ & Hs & He).
  unfold trimmed. by rewrite Hs, He.
Qed.

Lemma returned_text_is_last_partial_trimmed_witness :
  exists es,
    logged Scenario.fresh
      [chat_post (Cases.env_lines Cases.two_chunks JNull) "my-chatbot" [];
       StEmpty; AreaMarkdown "Hel"; AreaMarkdown "Hello! "]
    = logged Scenario.fresh es
    /\ "Hello!" = PyStr.strip (default "" (last (published es)))
    /\ trimmed "Hello!" = true.
Proof.
  apply (returned_text_is_last_partial_trimmed
           (Cases.env_lines Cases.two_chunks JNull) "my-chatbot" []
           Scenario.fresh).
  vm_compute. reflexivity.
Defined.

(** X4. Empty lines in the stream are skipped without a trace: a response
    with the same status whose lines are those of another one without
    the empty lines gives the same return value, the same published texts
    and the same exception. *)
Theorem empty_lines_are_skipped
    (env env' : Env) (model_name : string) (msgs : list Message) (w : world)
    (r r' : Response) :
  json_loads env' = json_loads env ->
  json_dumps env' = json_dumps env ->
  requests_post env OLLAMA_URL
    (json_dumps env (chat_request model_name msgs)) chat_headers = Ok r ->
  requests_post env' OLLAMA_URL
    (json_dumps env' (chat_request model_name msgs)) chat_headers = Ok r' ->
  status_code r' = status_code r ->
  iter_lines r' = filter (fun l => l <> "") (iter_lines r) ->
  stream_response env' model_name msgs w
  = stream_response env model_name msgs w.
Proof.
  intros Hloads Hdumps Hr Hr' Hstatus Hlines.
  rewrite !stream_response_eq, Hr, Hr', Hstatus, Hlines.
  unfold chat_post. rewrite Hdumps.
  destruct ((400 <=? status_code r) && (status_code r <? 600)); [done|].
  rewrite for_chunks_without_empty_lines.
  by rewrite (for_chunks_same_decoder env env').
Qed.

Lemma empty_lines_are_skipped_witness :
  stream_response
    (Cases.env_lines [Cases.content_line (Scenario.quoted "Hel");
                      Cases.content_line (Scenario.quoted "lo! ")] JNull)
    "my-chatbot" [] Scenario.fresh
  = stream_response (Cases.env_lines Cases.two_chunks JNull)
      "my-chatbot" [] Scenario.fresh.
Proof.
  apply (empty_lines_are_skipped
           (Cases.env_lines Cases.two_chunks JNull)
           (Cases.env_lines [Cases.content_line (Scenario.quoted "Hel");
                             Cases.content_line (Scenario.quoted "lo! ")]
              JNull)
           "my-chatbot" [] Scenario.fresh
           (Cases.stream 200 Cases.two_chunks)
           (Cases.stream 200 [Cases.content_line (Scenario.quoted "Hel");
                              Cases.content_line (Scenario.quoted "lo! ")])
           eq_refl eq_refl eq_refl eq_refl eq_refl).
  vm_compute. reflexivity.
Defined.

(** X5. A chunk whose [message.content] is not a text either ends the
    turn silently or raises [TypeError]: it ends the turn when the content
    is a list with the marker as an element or an object with the marker
    as a key (the marker test succeeds on it), and raises otherwise (a
    number, boolean or null at the marker test, any other list or object
    at the concatenation). *)
Theorem non_text_content_stops_or_raises
    (env : Env) (model_name : string) (msgs : list Message) (w : world)
    (r : Response) (pre post : list string) (line : string)
    (v : json_value) :
  requests_post env OLLAMA_URL
    (json_dumps env (chat_request model_name msgs)) chat_headers = Ok r ->
  ~ (400 <= status_code r < 600) ->
  iter_lines r = pre ++ line :: post ->
  Forall (clean env) pre ->
  line <> "" ->
  chunk_content env line = Ok v ->
  is_text v = false ->
  stream_response env model_name msgs w =
    (match v with
     | JArr l =>
         if existsb (Py.eq_str IM_END) l
         then Ok (PyStr.strip (joined (text_chunks env pre)))
         else Raise TypeError
     | JObj m =>
         if bool_decide (is_Some (m !! IM_END))
         then Ok (PyStr.strip (joined (text_chunks env pre)))
         else Raise TypeError
     | _ => Raise TypeError
     end,
     logged w (chat_post env model_name msgs :: StEmpty ::
               (AreaMarkdown <$> partials "" (text_chunks env pre)))).
Proof.
  intros Hr Hs Hlines Hpre Hne Hc Hv.
  rewrite (stream_response_streaming env model_name msgs w r Hr Hs), Hlines.
  rewrite for_chunks_clean_prefix by done.
  rewrite for_chunks_cons, Hc, logged_logged. case_bool_decide; [done|].
  destruct v as [| | | | |l|m]; try done; simpl.
  - by destruct (existsb (Py.eq_str IM_END) l).
  - by case_bool_decide.
Qed.

Lemma non_text_content_stops_or_raises_witness :
  (stream_response
     (Cases.env_lines [Cases.content_line (Scenario.quoted "Hel");
                       Cases.content_line "5"] JNull)
     "my-chatbot" [] Scenario.fresh).1 = Raise TypeError
  /\ (stream_response
        (Cases.env_lines
           [Cases.content_line (Scenario.quoted "Hel");
            Cases.content_line ("[" +:+ Scenario.quoted "<|im_end|>" +:+ "]")]
           JNull)
        "my-chatbot" [] Scenario.fresh).1 = Ok "Hel".
Proof.
  assert (Hpre : forall lines,
             Forall (clean (Cases.env_lines lines JNull))
               [Cases.content_line (Scenario.quoted "Hel")]).
  { intros lines. constructor; [|constructor].
    right. eexists. split; vm_compute; reflexivity. }
  split.
  - rewrite (non_text_content_stops_or_raises
               (Cases.env_lines [Cases.content_line (Scenario.quoted "Hel");
                                 Cases.content_line "5"] JNull)
               "my-chatbot" [] Scenario.fresh
               (Cases.stream 200 [Cases.content_line (Scenario.quoted "Hel");
                                  Cases.content_line "5"])
               [Cases.content_line (Scenario.quoted "Hel")] []
               (Cases.content_line "5") (JInt 5)
               eq_refl ltac:(simpl; lia) eq_refl (Hpre _)
               ltac:(vm_compute; discriminate) eq_refl eq_refl).
    reflexivity.
  - rewrite (non_text_content_stops_or_raises
               (Cases.env_lines
                  [Cases.content_line (Scenario.quoted "Hel");
                   Cases.content_line
                     ("[" +:+ Scenario.quoted "<|im_end|>" +:+ "]")] JNull)
               "my-chatbot" [] Scenario.fresh
               (Cases.stream 200
                  [Cases.content_line (Scenario.quoted "Hel");
                   Cases.content_line
                     ("[" +:+ Scenario.quoted "<|im_end|>" +:+ "]")])
               [Cases.content_line (Scenario.quoted "Hel")] []
               (Cases.content_line
                  ("[" +:+ Scenario.quoted "<|im_end|>" +:+ "]"))
               (JArr [JStr "<|im_end|>"])
               eq_refl ltac:(simpl; lia) eq_refl (Hpre _)
               ltac:(vm_compute; discriminate) eq_refl eq_refl).
    vm_compute. reflexivity.
Defined.

(** X6. The marker is looked for in each chunk on its own: when it is
    split over two consecutive chunks, neither of which contains it,
    the turn does not end there, and the text written to the page (whose
    trimmed form is returned) contains the marker. *)
Theorem split_marker_is_not_detected
    (env : Env) (model_name : string) (msgs : list Message) (w : world)
    (r : Response) (line1 line2 c1 c2 : string) :
  requests_post env OLLAMA_URL
    (json_dumps env (chat_request model_name msgs)) chat_headers = Ok r ->
  ~ (400 <= status_code r < 600) ->
  iter_lines r = [line1; line2] ->
  line1 <> "" -> chunk_content env line1 = Ok (JStr c1) ->
  line2 <> "" -> chunk_content env line2 = Ok (JStr c2) ->
  PyStr.contains IM_END c1 = false ->
  PyStr.contains IM_END c2 = false ->
  PyStr.contains IM_END (c1 +:+ c2) = true ->
  exists shown,
    stream_response env model_name msgs w =
      (Ok (PyStr.strip shown),
       logged w [chat_post env model_name msgs; StEmpty;
                 AreaMarkdown c1; AreaMarkdown shown])
    /\ PyStr.contains IM_END shown = true.
Proof.
  intros Hr Hs Hlines Hne1 Hc1 Hne2 Hc2 Hno1 Hno2 Hin.
  exists (c1 +:+ c2). split; [|done].
  rewrite (stream_response_clean env model_name msgs w r Hr Hs).
  - rewrite Hlines, (text_chunks_cons env line1 c1),
      (text_chunks_cons env line2 c2) by done.
    simpl. by rewrite PyStrFacts.sapp_nil_r.
  - rewrite Hlines. constructor; [|constructor; [|constructor]];
      right; eexists; by split.
Qed.

Lemma split_marker_is_not_detected_witness :
  exists shown,
    stream_response (Cases.env_lines Cases.split_marker JNull)
      "my-chatbot" [] Scenario.fresh
    = (Ok (PyStr.strip shown),
       logged Scenario.fresh
         [chat_post (Cases.env_lines Cases.split_marker JNull)
            "my-chatbot" [];
          StEmpty; AreaMarkdown "a<|im_"; AreaMarkdown shown])
    /\ PyStr.contains IM_END shown = true.
Proof.
  apply (split_marker_is_not_detected
           (Cases.env_lines Cases.split_marker JNull) "my-chatbot" []
           Scenario.fresh (Cases.stream 200 Cases.split_marker)
           (Cases.content_line (Scenario.quoted "a<|im_"))
           (Cases.content_line (Scenario.quoted "end|>b"))
           "a<|im_" "end|>b"
           eq_refl ltac:(simpl; lia) eq_refl
           ltac:(vm_compute; discriminate) eq_refl
           ltac:(vm_compute; discriminate) eq_refl
           eq_refl eq_refl eq_refl).
Defined.

(** X7. Once a response has arrived, [stream_response] raises [HTTPError]
    exactly when its status is 4xx or 5xx: a response with any other
    status (a redirect, say) is read as a stream, and the failures of the
    stream itself are never [HTTPError]. *)
Theorem http_error_exactly_on_4xx_5xx
    (env : Env) (model_name : string) (msgs : list Message) (w : world)
    (r : Response) :
  requests_post env OLLAMA_URL
    (json_dumps env (chat_request model_name msgs)) chat_headers = Ok r ->
  (stream_response env model_name msgs w).1 = Raise HTTPError
  <-> 400 <= status_code r < 600.
Proof.
  intros Hr. split.
  - intros Hraise.
    destruct (decide (400 <= status_code r < 600)) as [|Hs]; [done|].
    rewrite (stream_response_streaming env model_name msgs w r Hr Hs)
      in Hraise.
    pose proof (for_chunks_raises env (iter_lines r) ""
                  (logged w [chat_post env model_name msgs; StEmpty])
                  HTTPError) as Hkinds.
    destruct (for_chunks env _ _ _) as [[text|e] w']; [done|].
    simpl in *. injection Hraise as ->.
    by destruct (Hkinds eq_refl) as [|[|]].
  - intros Hs.
    by rewrite (stream_response_http_error env model_name msgs w r Hr Hs).
Qed.

Lemma http_error_exactly_on_4xx_5xx_witness :
  (stream_response
     (Cases.env_of None (Ok (Cases.stream 404 Cases.two_chunks))
        (Raise RequestException))
     "my-chatbot" [] Scenario.fresh).1 = Raise HTTPError
  /\ (stream_response
        (Cases.env_of None (Ok (Cases.stream 301 Cases.two_chunks))
           (Raise RequestException))
        "my-chatbot" [] Scenario.fresh).1 <> Raise HTTPError.
Proof.
  split.
  - apply (http_error_exactly_on_4xx_5xx
             (Cases.env_of None (Ok (Cases.stream 404 Cases.two_chunks))
                (Raise RequestException))
             "my-chatbot" [] Scenario.fresh
             (Cases.stream 404 Cases.two_chunks) eq_refl).
    simpl. lia.
  - intros Hraise.
    apply (http_error_exactly_on_4xx_5xx
             (Cases.env_of None (Ok (Cases.stream 301 Cases.two_chunks))
                (Raise RequestException))
             "my-chatbot" [] Scenario.fresh
             (Cases.stream 301 Cases.two_chunks) eq_refl) in Hraise.
    simpl in Hraise. lia.
Defined.

(** X8. Whatever happens, one call of [stream_response] sends exactly one
    request, the chat request for its arguments (no retry), and leaves the
    conversation as it is. *)
Theorem stream_response_sends_one_request
    (env : Env) (model_name : string) (msgs : list Message) (w : world) :
  exists es,
    (stream_response env model_name msgs w).2 = logged w es
    /\ requests es = [chat_post env model_name msgs]
    /\ messages (stream_response env model_name msgs w).2 = messages w.
Proof.
  assert (Hnone : exists es,
             logged w [chat_post env model_name msgs] = logged w es
             /\ requests es = [chat_post env model_name msgs]
             /\ messages (logged w [chat_post env model_name msgs])
                = messages w)
    by (by exists [chat_post env model_name msgs]).
  rewrite stream_response_eq.
  destruct (requests_post env _ _ _) as [r|e]; [|done].
  destruct ((400 <=? status_code r) && (status_code r <? 600)); [done|].
  destruct (for_chunks_frame env (iter_lines r) ""
              (logged w [chat_post env model_name msgs; StEmpty]))
    as [texts Hw].
  exists (chat_post env model_name msgs :: StEmpty :: (AreaMarkdown <$> texts)).
  assert (Hreq : requests (chat_post env model_name msgs :: StEmpty ::
                           (AreaMarkdown <$> texts))
                 = [chat_post env model_name msgs]).
  { change (chat_post env model_name msgs :: StEmpty :: (AreaMarkdown <$> texts))
      with ([chat_post env model_name msgs; StEmpty] ++ (AreaMarkdown <$> texts)).
    by rewrite requests_app, requests_markdowns. }
  destruct (for_chunks env _ _ _) as [[text|e] w']; simpl in *; subst w';
    by rewrite logged_logged.
Qed.

(** ** The transcription client on arbitrary responses *)

Lemma transcript_of_returns (r : Response) (body : json_value) (t : string) :
  json r = Some body ->
  transcript_of r = Ok t ->
  path_shaped body.
Proof.
  intros Hjson. unfold transcript_of. rewrite Hjson. simpl.
  destruct body as [| | | | | |o]; try done. simpl.
  destruct (o !! "results") as [results|] eqn:Hres; simpl;
    [|intros _; left; by apply missing_results].
  destruct results as [| | | | | |res]; try done. simpl.
  destruct (res !! "channels") as [channels|] eqn:Hch; simpl;
    [|intros _; left; by apply (missing_channels o res)].
  destruct channels as [| | | | [|? ?] |[|channel cs]|?]; try done. simpl.
  destruct channel as [| | | | | |c]; try done. simpl.
  destruct (c !! "alternatives") as [alternatives|] eqn:Halt; simpl;
    [|intros _; left; by apply (missing_alternatives o res c cs)].
  destruct alternatives as [| | | | [|? ?] |[|alternative alts]|?];
    try done. simpl.
  destruct alternative as [| | | | | |a]; try done. simpl.
  destruct (a !! "transcript") as [transcript|] eqn:Htr; simpl;
    [|intros _; left; by apply (missing_transcript o res c cs a alts)].
  destruct transcript as [| | | |s| |]; try done.
  intros _. right. exists s. unfold transcript_at_path.
  by rewrite Hres, Hch, Halt.
Qed.

(** X9. On a 200 response with a JSON body, [transcribe_audio] returns a
    text exactly when the path
    [results.channels[0].alternatives[0].transcript] of the body is
    complete and ends in a text, or stops at a missing key; on every
    other body (a level of another kind, an empty list, a transcript that
    is not a text) it raises. *)
Theorem transcribe_audio_returns_iff_path_shaped
    (env : Env) (audio_data : string) (w : world) (r : Response)
    (body : json_value) :
  requests_post env DEEPGRAM_URL audio_data (audio_headers env) = Ok r ->
  status_code r = 200 ->
  json r = Some body ->
  (exists t, (transcribe_audio env audio_data w).1 = Ok t)
  <-> path_shaped body.
Proof.
  intros Hr Hs Hjson.
  rewrite (transcribe_audio_200 env audio_data w r Hr Hs). simpl. split.
  - intros [t Ht]. by apply (transcript_of_returns r body t).
  - intros [Hmiss|[t Hpath]].
    + exists "". by apply (transcript_of_key_missing r body).
    + exists (PyStr.strip t).
      by rewrite (transcript_of_complete r body (JStr t)).
Qed.

Lemma transcribe_audio_returns_iff_path_shaped_witness :
  ~ path_shaped
      (JObj {[ "results" :=
         JObj {[ "channels" :=
           JArr [JObj {[ "alternatives" :=
             JArr [JObj {[ "transcript" := JNull ]}] ]}] ]} ]}).
Proof.
  intros Hshape.
  apply (transcribe_audio_returns_iff_path_shaped
           (Cases.env_lines [] JNull) "RIFF" Scenario.fresh
           (Scenario.audio_ok
              (JObj {[ "results" :=
                 JObj {[ "channels" :=
                   JArr [JObj {[ "alternatives" :=
                     JArr [JObj {[ "transcript" := JNull ]}] ]}] ]} ]}))
           _ eq_refl eq_refl eq_refl) in Hshape.
  destruct Hshape as [t Ht]. vm_compute in Ht. discriminate.
Defined.

(** X10. Whatever [transcribe_audio] returns has no whitespace at either
    end; in particular a transcript of whitespace only comes back as the
    empty string. *)
Theorem transcript_is_trimmed
    (env : Env) (audio_data : string) (w w' : world) (t : string) :
  transcribe_audio env audio_data w = (Ok t, w') ->
  trimmed t = true
  /\ (forall r s,
        requests_post env DEEPGRAM_URL audio_data (audio_headers env) = Ok r ->
        status_code r = 200 ->
        (exists body, json r = Some body
                      /\ transcript_at_path body = Some (JStr s)) ->
        PyStr.all_space s = true ->
        t = "").
Proof.
  rewrite transcribe_audio_eq. intros Hcall. split.
  - destruct (requests_post env _ _ _) as [r|e]; [|done].
    destruct (status_code r =? 200); [|by injection Hcall as <- _].
    injection Hcall as Ht _. unfold transcript_of in Ht.
    repeat match type of Ht with
           | result_bind ?x _ = _ => destruct x; simpl in Ht; [|done]
           end.
    match type of Ht with Py.strip ?v = _ => destruct v; try done end.
    injection Ht as <-.
    destruct (PyStrFacts.strip_spec s) as (l & r' & _ & _ & _ & Hs & He).
    unfold trimmed. by rewrite Hs, He.
  - intros r s Hr Hstatus (body & Hjson & Hpath) Hspace.
    rewrite Hr, Hstatus in Hcall. simpl in Hcall.
    rewrite (transcript_of_complete r body (JStr s) Hjson Hpath) in Hcall.
    injection Hcall as <- _. simpl. by apply PyStrFacts.strip_all_space.
Qed.

Lemma transcript_is_trimmed_witness :
  trimmed "hello world" = true.
Proof.
  apply (transcript_is_trimmed Scenario.env "RIFF" Scenario.fresh
           (logged Scenario.fresh [audio_post Scenario.env "RIFF"])
           "hello world").
  vm_compute. reflexivity.
Defined.

(** X11. Only a status other than 200 is absorbed. When the request
    itself fails, [transcribe_audio] raises the transport error to its
    caller and shows no notification. *)
Theorem transcription_transport_failure_propagates
    (env : Env) (audio_data : string) (w : world) (e : exn) :
  requests_post env DEEPGRAM_URL audio_data (audio_headers env) = Raise e ->
  transcribe_audio env audio_data w
  = (Raise e, logged w [audio_post env audio_data])
  /\ notifications [audio_post env audio_data] = [].
Proof.
  intros Hr. by rewrite transcribe_audio_eq, Hr.
Qed.

Lemma transcription_transport_failure_propagates_witness :
  transcribe_audio Cases.env_offline "RIFF" Scenario.fresh
  = (Raise RequestException,
     logged Scenario.fresh [audio_post Cases.env_offline "RIFF"]).
Proof.
  apply (transcription_transport_failure_propagates Cases.env_offline "RIFF"
           Scenario.fresh RequestException eq_refl).
Defined.

(** X12. Whatever happens, one call of [transcribe_audio] sends exactly
    one request: the audio bytes as they are, to the transcription
    endpoint, with the key of the environment after "Token " in the
    [Authorization] header, or "Token None" when the key is not set (the
    call is made all the same). It leaves the conversation as it is and
    shows at most one notification. *)
Theorem transcribe_audio_sends_one_request
    (env : Env) (audio_data : string) (w : world) :
  exists es,
    (transcribe_audio env audio_data w).2 = logged w es
    /\ requests es =
       [Post DEEPGRAM_URL audio_data
          [("Authorization",
            "Token " +:+ default "None" (DEEPGRAM_API_KEY env));
           ("Content-Type", "audio/wav")]]
    /\ messages (transcribe_audio env audio_data w).2 = messages w
    /\ (length (notifications es) <= 1)%nat.
Proof.
  assert (Hpost : audio_post env audio_data =
                  Post DEEPGRAM_URL audio_data
                    [("Authorization",
                      "Token " +:+ default "None" (DEEPGRAM_API_KEY env));
                     ("Content-Type", "audio/wav")])
    by (unfold audio_post, audio_headers; by destruct (DEEPGRAM_API_KEY env)).
  rewrite <- Hpost, transcribe_audio_eq.
  destruct (requests_post env _ _ _) as [r|e];
    [|exists [audio_post env audio_data]; repeat split; simpl; lia].
  destruct (status_code r =? 200).
  - exists [audio_post env audio_data]. repeat split; simpl; lia.
  - exists [audio_post env audio_data; StError "Error transcribing audio"].
    repeat split; simpl; lia.
Qed.

(** ** The orchestrator on arbitrary answers *)

Lemma alternating_app (a b : list Message) :
  (alternating a = true -> alternating (a ++ b) = alternating b)
  /\ (forall x, alternating (x :: a) = true ->
                alternating ((x :: a) ++ b) = alternating b).
Proof.
  induction a as [|y a [IH1 IH2]].
  - split; [done|]. by intros x.
  - split; [apply IH2|].
    intros x Hx. simpl in *.
    apply andb_true_iff in Hx as [Hroles Ha]. rewrite Hroles. simpl.
    by apply IH1.
Qed.

Lemma alternating_odd (a : list Message) (x : Message) :
  alternating a = true -> alternating (a ++ [x]) = false.
Proof.
  intros Ha. by rewrite (proj1 (alternating_app a [x]) Ha).
Qed.

(** What one turn does, whatever the outside answers. *)
Lemma handle_chat_outcome (env : Env) (user_input : string) (w : world) :
  user_input <> "" ->
  exists es,
    trace (handle_chat env user_input w).2 = trace w ++ es
    /\ requests es =
       [chat_post env "my-chatbot" (messages w ++ [user_message user_input])]
    /\ ((exists text,
           (handle_chat env user_input w).1 = Ok tt
           /\ messages (handle_chat env user_input w).2
              = messages w ++ [user_message user_input;
                               assistant_message text]
           /\ trimmed text = true)
        \/ (exists e,
              (handle_chat env user_input w).1 = Raise e
              /\ messages (handle_chat env user_input w).2
                 = messages w ++ [user_message user_input])).
Proof.
  intros Hne. rewrite handle_chat_eq by done.
  destruct (stream_response_requests env "my-chatbot"
              (messages w ++ [user_message user_input])
              (turn_opened user_input w)) as (es & Hw' & Hreq & _).
  exists ([StChatMessage "user"; StMarkdown user_input;
           StChatMessage "assistant"] ++ es).
  rewrite requests_app, Hreq.
  destruct (stream_response env _ _ _) as [[text|e] w'] eqn:Hcall;
    simpl in Hw'; subst w'; simpl; rewrite <- !app_assoc;
    (split; [done|]); (split; [done|]).
  - left. exists text. split; [done|]. split; [done|].
    by destruct (stream_response_returns env _ _ _ _ _ Hcall)
      as (_ & _ & _ & Htrim).
  - right. by exists e.
Qed.

(** X13. A turn on a non-empty input has two outcomes and no third. Either
    [handle_chat] returns and the conversation has grown by the user
    message, holding the input as it was typed, and one assistant message
    whose text has no whitespace at either end; or it raises and the
    conversation has grown by the user message alone. In both cases
    exactly one request was sent, the chat request for the conversation
    that ends with the user message. *)
Theorem turn_completes_or_leaves_user_message
    (env : Env) (user_input : string) (w : world) :
  user_input <> "" ->
  exists es,
    trace (handle_chat env user_input w).2 = trace w ++ es
    /\ requests es =
       [chat_post env "my-chatbot" (messages w ++ [user_message user_input])]
    /\ ((exists text,
           (handle_chat env user_input w).1 = Ok tt
           /\ messages (handle_chat env user_input w).2
              = messages w ++ [user_message user_input;
                               assistant_message text]
           /\ trimmed text = true)
        \/ (exists e,
              (handle_chat env user_input w).1 = Raise e
              /\ messages (handle_chat env user_input w).2
                 = messages w ++ [user_message user_input])).
Proof.
  intros Hne. rewrite handle_chat_eq by done.
  destruct (stream_response_requests env "my-chatbot"
              (messages w ++ [user_message user_input])
              (turn_opened user_input w)) as (es & Hw' & Hreq & _).
  exists ([StChatMessage "user"; StMarkdown user_input;
           StChatMessage "assistant"] ++ es).
  rewrite requests_app, Hreq.
  destruct (stream_response env _ _ _) as [[text|e] w'] eqn:Hcall;
    simpl in Hw'; subst w'; simpl; rewrite <- !app_assoc;
    (split; [done|]); (split; [done|]).
  - left. exists text. split; [done|]. split; [done|].
    by destruct (stream_response_returns env _ _ _ _ _ Hcall)
      as (_ & _ & _ & Htrim).
  - right. by exists e.
Qed.

Lemma turn_completes_or_leaves_user_message_witness :
  exists es,
    trace (handle_chat Scenario.env_down " " Scenario.fresh).2
    = trace Scenario.fresh ++ es
    /\ requests es
       = [chat_post Scenario.env_down "my-chatbot" [user_message " "]].
Proof.
  destruct (turn_completes_or_leaves_user_message Scenario.env_down " "
              Scenario.fresh ltac:(discriminate)) as (es & Htrace & Hreq & _).
  exists es. by split.
Defined.

(** X14. When the chat request itself fails, [handle_chat] raises the
    transport error; the user message it had appended stays, no
    assistant message is appended, and neither the placeholder nor any
    text was written. *)
Theorem chat_transport_failure_leaves_user_message
    (env : Env) (user_input : string) (w : world) (e : exn) :
  user_input <> "" ->
  requests_post env OLLAMA_URL
    (json_dumps env
       (chat_request "my-chatbot" (messages w ++ [user_message user_input])))
    chat_headers = Raise e ->
  handle_chat env user_input w =
    (Raise e,
     {| messages := messages w ++ [user_message user_input];
        trace := trace w ++
                 [StChatMessage "user"; StMarkdown user_input;
                  StChatMessage "assistant";
                  chat_post env "my-chatbot"
                    (messages w ++ [user_message user_input])] |}).
Proof.
  intros Hne Hr. rewrite handle_chat_eq, stream_response_eq, Hr by done.
  unfold logged, turn_opened. simpl. by rewrite <- app_assoc.
Qed.

Lemma chat_transport_failure_leaves_user_message_witness :
  handle_chat Cases.env_offline "Hi" Scenario.fresh =
    (Raise RequestException,
     {| messages := [user_message "Hi"];
        trace := [StChatMessage "user"; StMarkdown "Hi";
                  StChatMessage "assistant";
                  chat_post Cases.env_offline "my-chatbot"
                    [user_message "Hi"]] |}).
Proof.
  apply (chat_transport_failure_leaves_user_message Cases.env_offline "Hi"
           Scenario.fresh RequestException ltac:(discriminate) eq_refl).
Defined.

(** X15. Completed turns keep the conversation a sequence of
    user/assistant pairs; a turn that raises breaks it, leaving a user
    message without a reply at the end. *)
Theorem alternation_kept_by_completed_turns
    (env : Env) (user_input : string) (w : world) :
  alternating (messages w) = true ->
  ((handle_chat env user_input w).1 = Ok tt ->
   alternating (messages (handle_chat env user_input w).2) = true)
  /\ (forall e,
        (handle_chat env user_input w).1 = Raise e ->
        alternating (messages (handle_chat env user_input w).2) = false
        /\ messages (handle_chat env user_input w).2
           = messages w ++ [user_message user_input]).
Proof.
  intros Halt. destruct (decide (user_input = "")) as [->|Hne].
  - rewrite handle_chat_empty. by split.
  - destruct (handle_chat_outcome env user_input w Hne)
      as (es & _ & _ & [(text & Hok & Hmsgs & _)|(e & Hraise & Hmsgs)]);
      rewrite Hmsgs.
    + split; [|intros e He; by rewrite Hok in He].
      intros _. by rewrite (proj1 (alternating_app (messages w) _) Halt).
    + split; [intros Hok; by rewrite Hraise in Hok|].
      intros _ _. split; [by apply alternating_odd | done].
Qed.

Lemma alternation_kept_by_completed_turns_witness :
  alternating (messages (handle_chat Scenario.env "Again"
                           {| messages := Cases.one_turn; trace := [] |}).2)
  = true.
Proof.
  apply (alternation_kept_by_completed_turns Scenario.env "Again"
           {| messages := Cases.one_turn; trace := [] |} eq_refl).
  vm_compute. reflexivity.
Defined.

(** X16. After a turn that raised, the next turn sends a conversation in
    which two user messages follow each other: the one left without a
    reply and the new one. *)
Theorem failed_turn_is_resent_with_next_turn
    (env env' : Env) (user_input next_input : string) (w w1 : world)
    (e : exn) :
  user_input <> "" ->
  next_input <> "" ->
  handle_chat env user_input w = (Raise e, w1) ->
  exists es,
    trace (handle_chat env' next_input w1).2 = trace w1 ++ es
    /\ requests es =
       [chat_post env' "my-chatbot"
          (messages w ++ [user_message user_input;
                          user_message next_input])].
Proof.
  intros Hne Hne' Hfail.
  destruct (handle_chat_outcome env user_input w Hne)
    as (_ & _ & _ & [(text & Hok & _)|(e' & _ & Hmsgs)]);
    rewrite Hfail in *; [done|]. simpl in Hmsgs.
  destruct (handle_chat_outcome env' next_input w1 Hne')
    as (es & Htrace & Hreq & _).
  exists es. split; [done|]. by rewrite Hreq, Hmsgs, <- app_assoc.
Qed.

Lemma failed_turn_is_resent_with_next_turn_witness :
  exists es,
    trace (handle_chat Scenario.env "Again"
             (handle_chat Scenario.env_down "Hi" Scenario.fresh).2).2
    = trace (handle_chat Scenario.env_down "Hi" Scenario.fresh).2 ++ es
    /\ requests es =
       [chat_post Scenario.env "my-chatbot"
          [user_message "Hi"; user_message "Again"]].
Proof.
  apply (failed_turn_is_resent_with_next_turn Scenario.env_down Scenario.env
           "Hi" "Again" Scenario.fresh
           (handle_chat Scenario.env_down "Hi" Scenario.fresh).2 HTTPError
           ltac:(discriminate) ltac:(discriminate)).
  vm_compute. reflexivity.
Defined.

Lemma message_json_inj (m1 m2 : Message) :
  message_json m1 = message_json m2 -> m1 = m2.
Proof.
  destruct m1 as [r1 c1], m2 as [r2 c2]. unfold message_json.
  cbn [role content]. intros Heq.
  pose proof (f_equal (fun v => match v with
                                | JObj m => m !! "role"
                                | _ => None
                                end) Heq) as Hr.
  pose proof (f_equal (fun v => match v with
                                | JObj m => m !! "content"
                                | _ => None
                                end) Heq) as Hc.
  cbv beta iota in Hr, Hc.
  rewrite !lookup_insert_eq in Hr.
  rewrite !lookup_insert_ne, !lookup_singleton_eq in Hc by done.
  congruence.
Qed.

(** X17. The request object determines what it was built from: two chat
    requests are equal only when the model names are equal and the
    conversations are equal, message by message, in role, content and
    order. *)
Theorem chat_request_determines_conversation
    (model1 model2 : string) (msgs1 msgs2 : list Message) :
  chat_request model1 msgs1 = chat_request model2 msgs2
  <-> model1 = model2 /\ msgs1 = msgs2.
Proof.
  split; [|by intros [-> ->]].
  unfold chat_request. intros Heq.
  pose proof (f_equal (fun v => match v with
                                | JObj m => m !! "model"
                                | _ => None
                                end) Heq) as Hm.
  pose proof (f_equal (fun v => match v with
                                | JObj m => m !! "messages"
                                | _ => None
                                end) Heq) as Hl.
  cbv beta iota in Hm, Hl.
  rewrite !lookup_insert_eq in Hm.
  rewrite !lookup_insert_ne, !lookup_singleton_eq in Hl by done.
  assert (Hmodel : model1 = model2) by congruence.
  assert (Hlist : message_json <$> msgs1 = message_json <$> msgs2)
    by congruence.
  split; [done|]. clear Heq Hm Hl Hmodel.
  revert msgs2 Hlist.
  induction msgs1 as [|m1 msgs1 IH]; intros [|m2 msgs2] Hl; try done.
  rewrite !fmap_cons in Hl.
  assert (Hhead : message_json m1 = message_json m2) by congruence.
  assert (Htail : message_json <$> msgs1 = message_json <$> msgs2)
    by congruence.
  f_equal; [by apply message_json_inj | by apply IH].
Qed.

(** X23. A reply without visible text is stored all the same: when the
    stream ends without the marker and its contents are whitespace only
    (or there is no content at all), [handle_chat] returns and appends the
    user message and an assistant message with empty content. *)
Theorem blank_reply_is_stored_as_empty_message
    (env : Env) (user_input : string) (w : world) (r : Response) :
  user_input <> "" ->
  requests_post env OLLAMA_URL
    (json_dumps env
       (chat_request "my-chatbot" (messages w ++ [user_message user_input])))
    chat_headers = Ok r ->
  ~ (400 <= status_code r < 600) ->
  Forall (clean env) (iter_lines r) ->
  PyStr.all_space (joined (text_chunks env (iter_lines r))) = true ->
  (handle_chat env user_input w).1 = Ok tt
  /\ messages (handle_chat env user_input w).2
     = messages w ++ [user_message user_input; assistant_message ""].
Proof.
  intros Hne Hr Hs Hclean Hblank.
  rewrite handle_chat_eq by done.
  rewrite (stream_response_clean env "my-chatbot" _ _ r Hr Hs Hclean).
  rewrite PyStrFacts.strip_all_space by done. simpl.
  by rewrite <- app_assoc.
Qed.

Lemma blank_reply_is_stored_as_empty_message_witness :
  (handle_chat (Cases.env_lines [] JNull) "Hi" Scenario.fresh).1 = Ok tt
  /\ messages (handle_chat (Cases.env_lines [] JNull) "Hi" Scenario.fresh).2
     = messages Scenario.fresh ++ [user_message "Hi"; assistant_message ""].
Proof.
  apply (blank_reply_is_stored_as_empty_message (Cases.env_lines [] JNull)
           "Hi" Scenario.fresh (Cases.stream 200 [])
           ltac:(discriminate) eq_refl ltac:(simpl; lia)).
  - constructor.
  - reflexivity.
Defined.

(** ** One run of the script *)

Lemma show_messages_eq (msgs : list Message) (w : world) :
  show_messages msgs w = (Ok tt, logged w (history msgs)).
Proof.
  revert w. induction msgs as [|m msgs IH]; intros w.
  - simpl. by rewrite logged_nil.
  - simpl. unfold bind, emit. simpl. rewrite IH.
    unfold logged, history. simpl. by rewrite <- !app_assoc.
Qed.

Lemma requests_history (msgs : list Message) : requests (history msgs) = [].
Proof. induction msgs as [|m msgs IH]; [done | exact IH]. Qed.

(** The world of a run once the stored conversation is on the page. *)
Lemma main_eq (env : Env) (chat_input recording : option string)
    (stored : option (list Message)) :
  main env chat_input recording stored =
  match handle_chat env (default "" chat_input)
          {| messages := default [] stored;
             trace := history (default [] stored) |} with
  | (Raise e, w1) => (Raise e, w1)
  | (Ok _, w1) =>
      match recording with
      | None => (Ok tt, w1)
      | Some wav =>
          match transcribe_audio env wav w1 with
          | (Raise e, w2) => (Raise e, w2)
          | (Ok transcript, w2) => handle_chat env transcript w2
          end
      end
  end.
Proof.
  unfold main, bind, get_messages. cbn [messages].
  rewrite show_messages_eq. unfold logged. cbn [messages trace app].
  assert (Hchat : forall w,
             match chat_input with
             | Some user_input =>
                 if bool_decide (user_input = "") then ret tt
                 else handle_chat env user_input
             | None => ret tt
             end w = handle_chat env (default "" chat_input) w).
  { intros w. destruct chat_input as [u|]; [|done].
    change (default "" (Some u)) with u.
    case_bool_decide as Hu; [by rewrite Hu | reflexivity]. }
  rewrite Hchat.
  destruct (handle_chat env _ _) as [[[]|e] w1]; [|done].
  destruct recording as [wav|]; [|done].
  destruct (transcribe_audio env wav w1) as [[transcript|e] w2]; [|done].
  case_bool_decide as Ht; [by rewrite Ht|done].
Qed.

(** What any turn adds to the conversation. *)
Lemma handle_chat_grows (env : Env) (user_input : string) (w : world) :
  exists new,
    messages (handle_chat env user_input w).2 = messages w ++ new
    /\ (length new <= 2)%nat
    /\ Forall (fun m => role m = "user" \/ role m = "assistant") new.
Proof.
  destruct (decide (user_input = "")) as [->|Hne].
  - exists []. rewrite handle_chat_empty, app_nil_r.
    split; [done|]. split; [simpl; lia | constructor].
  - destruct (handle_chat_outcome env user_input w Hne)
      as (_ & _ & _ & [(text & _ & -> & _)|(e & _ & ->)]);
      eexists; (split; [done|]); (split; [simpl; lia|]).
    + constructor; [by left|]. constructor; [by right|]. constructor.
    + constructor; [by left|]. constructor.
Qed.

(** X18. A run without input (nothing submitted, or the empty text, and no
    recording) sends nothing and changes nothing: it puts the stored
    conversation on the page, one bubble per message with its role and
    content, in order, and the conversation stays as stored; on the first
    run of a session that is the empty conversation. *)
Theorem idle_run_only_shows_the_conversation
    (env : Env) (chat_input : option string)
    (stored : option (list Message)) :
  chat_input = None \/ chat_input = Some "" ->
  main env chat_input None stored =
    (Ok tt, {| messages := default [] stored;
               trace := history (default [] stored) |})
  /\ requests (history (default [] stored)) = []
  /\ published (history (default [] stored)) = []
  /\ length (history (default [] stored))
     = (2 * length (default [] stored))%nat.
Proof.
  intros Hidle. split; [|split; [apply requests_history|split]].
  - rewrite main_eq.
    assert (Hempty : default "" chat_input = "") by by destruct Hidle as [->| ->].
    by rewrite Hempty, handle_chat_empty.
  - induction (default [] stored) as [|m msgs IH]; [done | exact IH].
  - induction (default [] stored) as [|m msgs IH]; [done|].
    change (history (m :: msgs))
      with (StChatMessage (role m) :: StMarkdown (content m) :: history msgs).
    simpl in *. lia.
Qed.

Lemma idle_run_only_shows_the_conversation_witness :
  main Scenario.env (Some "") None (Some Cases.one_turn) =
    (Ok tt, {| messages := Cases.one_turn;
               trace := [StChatMessage "user"; StMarkdown "Hi";
                         StChatMessage "assistant"; StMarkdown "Hello!"] |}).
Proof.
  apply (idle_run_only_shows_the_conversation Scenario.env (Some "")
           (Some Cases.one_turn)).
  by right.
Defined.

(** X19. A recording whose transcription fails with a status other than
    200, or comes back without a transcript or with a transcript of
    whitespace only, starts no turn: the run returns, the conversation
    stays as stored, and the only request sent is the transcription
    request. *)
Theorem blank_or_failed_transcription_starts_no_turn
    (env : Env) (wav : string) (stored : option (list Message))
    (r : Response) :
  requests_post env DEEPGRAM_URL wav (audio_headers env) = Ok r ->
  status_code r <> 200
  \/ (status_code r = 200
      /\ exists body,
           json r = Some body
           /\ (key_missing body
               \/ exists s, transcript_at_path body = Some (JStr s)
                            /\ PyStr.all_space s = true)) ->
  exists es,
    main env None (Some wav) stored =
      (Ok tt, {| messages := default [] stored;
                 trace := history (default [] stored) ++ es |})
    /\ requests es = [audio_post env wav].
Proof.
  intros Hr Hcases. rewrite main_eq.
  change (default "" None) with "". rewrite handle_chat_empty.
  rewrite transcribe_audio_eq, Hr.
  destruct Hcases as [Hs|(Hs & body & Hjson & Hblank)].
  - apply Z.eqb_neq in Hs as ->. rewrite handle_chat_empty.
    by exists [audio_post env wav; StError "Error transcribing audio"].
  - rewrite Hs. simpl.
    assert (Ht : transcript_of r = Ok "").
    { destruct Hblank as [Hmiss|(s & Hpath & Hspace)].
      - by apply (transcript_of_key_missing r body).
      - rewrite (transcript_of_complete r body (JStr s)) by done.
        simpl. by rewrite PyStrFacts.strip_all_space. }
    rewrite Ht, handle_chat_empty. by exists [audio_post env wav].
Qed.

Lemma blank_or_failed_transcription_starts_no_turn_witness :
  exists es,
    main (Cases.env_lines Cases.two_chunks (JStr "   ")) None (Some "RIFF")
      (Some Cases.one_turn)
    = (Ok tt, {| messages := Cases.one_turn;
                 trace := history Cases.one_turn ++ es |})
    /\ requests es
       = [audio_post (Cases.env_lines Cases.two_chunks (JStr "   ")) "RIFF"].
Proof.
  apply (blank_or_failed_transcription_starts_no_turn
           (Cases.env_lines Cases.two_chunks (JStr "   ")) "RIFF"
           (Some Cases.one_turn)
           (Scenario.audio_ok (Scenario.transcript_body "   ")) eq_refl).
  right. split; [reflexivity|].
  exists (Scenario.transcript_body "   "). split; [reflexivity|].
  right. exists "   ". split; reflexivity.
Defined.

(** X20. When the typed turn raises, the run stops there: the exception
    leaves the script, the recording (if any) is never sent to the
    transcription service, and the conversation is the stored one
    followed by the typed user message. *)
Theorem typed_turn_error_stops_the_run
    (env : Env) (user_input : string) (recording : option string)
    (stored : option (list Message)) (e : exn) :
  user_input <> "" ->
  (handle_chat env user_input
     {| messages := default [] stored;
        trace := history (default [] stored) |}).1 = Raise e ->
  (main env (Some user_input) recording stored).1 = Raise e
  /\ messages (main env (Some user_input) recording stored).2
     = default [] stored ++ [user_message user_input]
  /\ requests (trace (main env (Some user_input) recording stored).2)
     = [chat_post env "my-chatbot"
          (default [] stored ++ [user_message user_input])].
Proof.
  intros Hne Hraise. rewrite main_eq. simpl.
  destruct (handle_chat_outcome env user_input
              {| messages := default [] stored;
                 trace := history (default [] stored) |} Hne)
    as (es & Htrace & Hreq & [(text & Hok & _)|(e' & _ & Hmsgs)]);
    [by rewrite Hok in Hraise|].
  destruct (handle_chat env user_input _) as [[[]|e''] w1]; [done|].
  simpl in *. injection Hraise as ->.
  split; [done|]. split; [done|].
  by rewrite Htrace, requests_app, requests_history, Hreq.
Qed.

Lemma typed_turn_error_stops_the_run_witness :
  (main Scenario.env_down (Some "Hi") (Some "RIFF") None).1 = Raise HTTPError
  /\ messages (main Scenario.env_down (Some "Hi") (Some "RIFF") None).2
     = [] ++ [user_message "Hi"]
  /\ requests (trace (main Scenario.env_down (Some "Hi") (Some "RIFF") None).2)
     = [chat_post Scenario.env_down "my-chatbot" ([] ++ [user_message "Hi"])].
Proof.
  apply (typed_turn_error_stops_the_run Scenario.env_down "Hi" (Some "RIFF")
           None HTTPError ltac:(discriminate)).
  vm_compute. reflexivity.
Defined.

(** X21. Whatever the inputs and whatever the outside answers, a run keeps
    the stored conversation as it is and at most appends to it: at most
    four messages (a typed turn and a spoken turn), each with role "user"
    or "assistant". *)
Theorem run_keeps_the_stored_conversation
    (env : Env) (chat_input recording : option string)
    (stored : option (list Message)) :
  exists new,
    messages (main env chat_input recording stored).2
    = default [] stored ++ new
    /\ (length new <= 4)%nat
    /\ Forall (fun m => role m = "user" \/ role m = "assistant") new.
Proof.
  rewrite main_eq.
  destruct (handle_chat_grows env (default "" chat_input)
              {| messages := default [] stored;
                 trace := history (default [] stored) |})
    as (new1 & Hm1 & Hlen1 & Hroles1).
  destruct (handle_chat env (default "" chat_input) _) as [[[]|e] w1];
    simpl in Hm1.
  2: { exists new1. repeat split; [done | lia | done]. }
  destruct recording as [wav|].
  2: { exists new1. repeat split; [done | lia | done]. }
  destruct (transcribe_audio_frame env wav w1) as [es Hw2].
  destruct (transcribe_audio env wav w1) as [[transcript|e] w2];
    simpl in Hw2; subst w2.
  2: { exists new1. repeat split; [done | lia | done]. }
  destruct (handle_chat_grows env transcript
              (logged w1 (audio_post env wav :: es)))
    as (new2 & Hm2 & Hlen2 & Hroles2).
  exists (new1 ++ new2). rewrite Hm2. simpl. rewrite Hm1, <- app_assoc.
  split; [done|]. split; [rewrite length_app; lia | by apply Forall_app].
Qed.

(** The loop does the same on every world: its result and what it adds
    to the trace do not depend on the world it starts in. *)
Lemma for_chunks_uniform (env : Env) (lines : list string) (acc : string) :
  exists res texts,
    forall w, for_chunks env lines acc w
              = (res, logged w (AreaMarkdown <$> texts)).
Proof.
  revert acc. induction lines as [|chunk rest IH]; intros acc.
  - exists (Ok acc), []. intros w. simpl. by rewrite logged_nil.
  - assert (Hstay : forall res : result string,
               exists res' texts,
                 forall w, (res, w) = (res', logged w (AreaMarkdown <$> texts))).
    { intros res. exists res, []. intros w. by rewrite logged_nil. }
    destruct (decide (chunk = "")) as [->|Hne].
    { destruct (IH acc) as (res & texts & Hu). exists res, texts.
      intros w. by rewrite for_chunks_empty_line. }
    destruct (chunk_content env chunk) as [content|e] eqn:Hc.
    2: { destruct (Hstay (Raise e)) as (res & texts & Hu).
         exists res, texts. intros w. rewrite for_chunks_cons, Hc.
         case_bool_decide; [done | apply Hu]. }
    destruct (Py.contains IM_END content) as [[|]|e] eqn:Hin.
    + destruct (Hstay (Ok acc)) as (res & texts & Hu).
      exists res, texts. intros w. rewrite for_chunks_cons, Hc, Hin.
      case_bool_decide; [done | apply Hu].
    + destruct (Py.add acc content) as [text|e] eqn:Hadd.
      * destruct (IH text) as (res & texts & Hu).
        exists res, (text :: texts). intros w.
        rewrite for_chunks_cons, Hc, Hin, Hadd.
        case_bool_decide; [done|]. by rewrite Hu, logged_logged.
      * destruct (Hstay (Raise e)) as (res & texts & Hu).
        exists res, texts. intros w. rewrite for_chunks_cons, Hc, Hin, Hadd.
        case_bool_decide; [done | apply Hu].
    + destruct (Hstay (Raise e)) as (res & texts & Hu).
      exists res, texts. intros w. rewrite for_chunks_cons, Hc, Hin.
      case_bool_decide; [done | apply Hu].
Qed.

Lemma stream_response_uniform (env : Env) (model_name : string)
    (msgs : list Message) :
  exists res es,
    forall w, stream_response env model_name msgs w = (res, logged w es).
Proof.
  destruct (requests_post env OLLAMA_URL
              (json_dumps env (chat_request model_name msgs)) chat_headers)
    as [r|e] eqn:Hr.
  2: { exists (Raise e), [chat_post env model_name msgs]. intros w.
       by rewrite stream_response_eq, Hr. }
  destruct ((400 <=? status_code r) && (status_code r <? 600)) eqn:Hs.
  { exists (Raise HTTPError), [chat_post env model_name msgs]. intros w.
    by rewrite stream_response_eq, Hr, Hs. }
  destruct (for_chunks_uniform env (iter_lines r) "") as (res & texts & Hu).
  exists (match res with
          | Ok text => Ok (PyStr.strip text)
          | Raise e => Raise e
          end),
         (chat_post env model_name msgs :: StEmpty :: (AreaMarkdown <$> texts)).
  intros w. rewrite stream_response_eq, Hr, Hs, Hu, logged_logged.
  by destruct res.
Qed.

(** A turn depends on the world through the conversation only. *)
Lemma handle_chat_uniform (env : Env) (user_input : string)
    (msgs : list Message) :
  exists res new es,
    forall w, messages w = msgs ->
              handle_chat env user_input w
              = (res, {| messages := msgs ++ new; trace := trace w ++ es |}).
Proof.
  destruct (decide (user_input = "")) as [->|Hne].
  { exists (Ok tt), [], []. intros [ms t] <-. rewrite handle_chat_empty.
    simpl. by rewrite !app_nil_r. }
  destruct (stream_response_uniform env "my-chatbot"
              (msgs ++ [user_message user_input])) as (res & es & Hu).
  exists (match res with Ok _ => Ok tt | Raise e => Raise e end),
         (match res with
          | Ok text => [user_message user_input; assistant_message text]
          | Raise _ => [user_message user_input]
          end),
         ([StChatMessage "user"; StMarkdown user_input;
           StChatMessage "assistant"] ++ es).
  intros w <-. rewrite handle_chat_eq, Hu by done.
  unfold logged, turn_opened. simpl.
  destruct res; simpl; by rewrite <- !app_assoc.
Qed.

(** X22. A spoken turn is recorded exactly like a typed one: when the
    transcription of the recording returns a text, the run ends as the
    run in which that text is typed does, with the same result (the same
    exception, if any) and the same conversation. *)
Theorem spoken_turn_is_recorded_like_a_typed_one
    (env : Env) (wav transcript : string) (stored : option (list Message))
    (w1 : world) :
  transcribe_audio env wav
    {| messages := default [] stored;
       trace := history (default [] stored) |} = (Ok transcript, w1) ->
  (main env None (Some wav) stored).1
  = (main env (Some transcript) None stored).1
  /\ messages (main env None (Some wav) stored).2
     = messages (main env (Some transcript) None stored).2.
Proof.
  intros Hcall. rewrite !main_eq.
  change (default "" None) with "". change (default "" (Some transcript))
    with transcript.
  rewrite handle_chat_empty, Hcall.
  destruct (transcribe_audio_frame env wav
              {| messages := default [] stored;
                 trace := history (default [] stored) |}) as [es Hw1].
  rewrite Hcall in Hw1. simpl in Hw1. subst w1.
  destruct (handle_chat_uniform env transcript (default [] stored))
    as (res & new & es' & Hu).
  rewrite !Hu by done. by destruct res as [[]|e].
Qed.

Lemma spoken_turn_is_recorded_like_a_typed_one_witness :
  (main Scenario.env None (Some "RIFF") None).1
  = (main Scenario.env (Some "hello world") None None).1
  /\ messages (main Scenario.env None (Some "RIFF") None).2
     = messages (main Scenario.env (Some "hello world") None None).2.
Proof.
  apply (spoken_turn_is_recorded_like_a_typed_one Scenario.env "RIFF"
           "hello world" None
           (logged {| messages := []; trace := [] |}
              [audio_post Scenario.env "RIFF"])).
  vm_compute. reflexivity.
Defined.
